(** * ynab-mcp: amount representation and response shaping

    A shallow embedding of the amount codec, the entity transformer, the
    amount-input validators, the transaction listing and search tools and
    the error classifier of [src/ynab_mcp.py], with the properties the
    specification states about them.

    Python values are modelled as follows.
    - [int] is [Z] (unbounded).
    - [float] is IEEE-754 binary64, given by the Standard Library's
      [spec_float] at precision 53 and maximal exponent 1024; products and
      quotients are the correctly rounded [SFmul] and [SFdiv].
    - [str] is [string]; [dict] with string keys is [gmap string value].
    - An exception is a value of [exn]; code that may raise returns a
      [result]; a tool runs in a [world] (environment, clock, files,
      upstream service) that it may change.
    - [json.dumps] and the normalisation of paths are parameters, the
      methods of the class [Library]. *)

From Stdlib Require Import ZArith String Ascii List Lia QArith Qround.
From Stdlib Require Import DecimalString.
From Stdlib Require Import Floats.SpecFloat.
From stdpp Require Import gmap strings list fin_maps.

Set Warnings "-register-all".
Local Open Scope Z_scope.
Local Open Scope string_scope.

(** ** Exceptions and results *)

(** [ApiException] is the upstream client's exception class, carrying the
    HTTP status and reason (either may be [None]); every other exception is
    recorded by its class name and its [str()]. *)
Inductive exn :=
| ApiException (status : option Z) (reason : option string)
| Exception (type_name : string) (msg : string).

Definition ValueError := Exception "ValueError".
Definition TypeError := Exception "TypeError".
Definition OverflowError := Exception "OverflowError".
Definition ValidationError := Exception "ValidationError".

Inductive result (A : Type) :=
| Ok (a : A)
| Raise (e : exn).
Arguments Ok {A} a.
Arguments Raise {A} e.

#[global] Instance result_ret : MRet result := fun A a => Ok a.

#[global] Instance result_bind : MBind result := fun A B k r =>
  match r with
  | Ok a => k a
  | Raise e => Raise e
  end.

Definition is_ok {A} (r : result A) : bool :=
  match r with Ok _ => true | Raise _ => false end.

(** Sequential [for] loop over a list whose body may raise. *)
Fixpoint mapM {A B} (f : A -> result B) (l : list A) : result (list B) :=
  match l with
  | [] => Ok []
  | a :: l' => b ← f a; bs ← mapM f l'; Ok (b :: bs)
  end.

(** ** Python numbers *)

Definition prec : Z := 53.
Definition emax : Z := 1024.

(** The exact rational value of a float (0 for the non-finite ones). *)
Definition F2Q (f : spec_float) : Q :=
  match f with
  | S754_finite s m (Zneg p) => Qmake (cond_Zopp s (Zpos m)) (Pos.pow 2 p)
  | S754_finite s m e => inject_Z (cond_Zopp s (Zpos m) * 2 ^ e)
  | _ => 0%Q
  end.

(** Truncation of a rational toward zero. *)
Definition Qtrunc (q : Q) : Z := Z.quot (Qnum q) (Zpos (Qden q)).

(** [str(n)] for an [int]. *)
Definition str_of_int (n : Z) : string := NilZero.string_of_int (Z.to_int n).

(** [int(x)] for a [float]: the integral part, and an exception at the
    non-finite values. *)
Definition int_of_float (x : spec_float) : result Z :=
  match x with
  | S754_zero _ => Ok 0
  | S754_finite s m (Zneg p) => Ok (cond_Zopp s (Z.shiftr (Zpos m) (Zpos p)))
  | S754_finite s m e => Ok (cond_Zopp s (Z.shiftl (Zpos m) e))
  | S754_infinity _ =>
      Raise (OverflowError "cannot convert float infinity to integer")
  | S754_nan => Raise (ValueError "cannot convert float NaN to integer")
  end.

(** An [int] as an exact dyadic number (mantissa of any size). *)
Definition float_of_int (z : Z) : spec_float :=
  match z with
  | Z0 => S754_zero false
  | Zpos p => S754_finite false p 0
  | Zneg p => S754_finite true p 0
  end.

(** [a / b] on two [int]s: the correctly rounded quotient. *)
Definition int_truediv (a b : Z) : result spec_float :=
  if (b =? 0)%Z then Raise (Exception "ZeroDivisionError" "division by zero")
  else
    match SFdiv prec emax (float_of_int a) (float_of_int b) with
    | S754_infinity _ =>
        Raise (OverflowError "integer division result too large for a float")
    | q => Ok q
    end.

(** The float [1000.0]. *)
Definition thousand : spec_float := S754_finite false 8796093022208000 (-43).

(** ** Formatting with [",.2f"] *)

(** Nearest integer to [n / d], ties to even ([0 <= n], [0 < d]). *)
Definition round_half_even (n d : Z) : Z :=
  let q := n / d in
  let r := n mod d in
  match (2 * r ?= d)%Z with
  | Lt => q
  | Gt => q + 1
  | Eq => if Z.even q then q else q + 1
  end.

(** The number of hundredths printed for a non-negative finite float. *)
Definition cents_of_float (x : spec_float) : Z :=
  match x with
  | S754_finite _ m (Zneg p) => round_half_even (100 * Zpos m) (2 ^ Zpos p)
  | S754_finite _ m e => 100 * Zpos m * 2 ^ e
  | _ => 0
  end.

(** A comma before every group of three digits, on the reversed digits. *)
Fixpoint commas_rev (l : list ascii) (k : nat) : list ascii :=
  match l with
  | [] => []
  | c :: l' =>
      match k with
      | O => ","%char :: c :: commas_rev l' 2
      | S k' => c :: commas_rev l' k'
      end
  end.

Definition group_thousands (n : Z) : string :=
  string_of_list_ascii
    (rev (commas_rev
            (rev (list_ascii_of_string (NilZero.string_of_uint (N.to_uint (Z.to_N n)))))
            3)).

Definition digit (d : Z) : ascii := ascii_of_nat (48 + Z.to_nat d).

Definition two_digits (n : Z) : string :=
  String (digit (n / 10)) (String (digit (n mod 10)) EmptyString).

(** [c] hundredths as [<grouped integer part>.<two digits>]. *)
Definition format_cents (c : Z) : string :=
  group_thousands (c / 100) +:+ "." +:+ two_digits (c mod 100).

Definition float_sign (x : spec_float) : bool :=
  match x with
  | S754_zero s | S754_infinity s | S754_finite s _ _ => s
  | S754_nan => false
  end.

(** [format(x, ",.2f")]. *)
Definition format_2f (x : spec_float) : string :=
  match x with
  | S754_nan => "nan"
  | S754_infinity s => if s then "-inf" else "inf"
  | _ => (if float_sign x then "-" else "") +:+ format_cents (cents_of_float x)
  end.

(** ** MonetaryAmount codec *)

Definition milliunits_to_dollars (milliunits : Z) : result string :=
  dollars ← int_truediv milliunits 1000;
  if SFltb dollars (S754_zero false)
  then Ok ("-$" +:+ format_2f (SFabs dollars))
  else Ok ("$" +:+ format_2f dollars).

Definition dollars_to_milliunits (dollars : spec_float) : result Z :=
  int_of_float (SFmul prec emax dollars thousand).

(** ** Python values and entities *)

(** The values an entity dictionary holds: [None], [bool], [int], [str],
    [list], [dict], and any other object (a date, for instance), kept as
    its [str()].  The upstream entities carry no [float]. *)
Inductive value :=
| VNone
| VBool (b : bool)
| VInt (z : Z)
| VStr (s : string)
| VList (l : list value)
| VDict (d : gmap string value)
| VOther (str : string).

Abbreviation dict := (gmap string value).

(** [milliunits_to_dollars] applied to a dynamically typed value: a [bool]
    is an [int]; [/] is not defined on the other types. *)
Definition milliunits_to_dollars_of (v : value) : result string :=
  match v with
  | VInt z => milliunits_to_dollars z
  | VBool b => milliunits_to_dollars (Z.b2z b)
  | _ => Raise (TypeError "unsupported operand type(s) for /")
  end.

Definition milliunits_key (field : string) : string := field +:+ "_milliunits".

(** ** Entity transformer *)

(** One iteration of the loop of [transform_amount_fields]. *)
Definition transform_field (res : dict) (field : string) : result dict :=
  match res !! field with
  | None | Some VNone => Ok res
  | Some milliunits =>
      dollars ← milliunits_to_dollars_of milliunits;
      Ok (<[field := VStr dollars]> (<[milliunits_key field := milliunits]> res))
  end.

Fixpoint transform_loop (res : dict) (fields : list string) : result dict :=
  match fields with
  | [] => Ok res
  | field :: fields' => res' ← transform_field res field; transform_loop res' fields'
  end.

Definition transform_amount_fields (obj : dict) (fields : list string)
  : result dict :=
  transform_loop obj fields.

Definition account_fields : list string :=
  ["balance"; "cleared_balance"; "uncleared_balance"].

Definition category_fields : list string :=
  ["budgeted"; "activity"; "balance"; "goal_target"; "goal_overall_left"].

Definition transaction_fields : list string := ["amount"].

Definition month_fields : list string :=
  ["income"; "budgeted"; "activity"; "to_be_budgeted"].

Definition transform_account (account : dict) : result dict :=
  transform_amount_fields account account_fields.

Definition transform_category (category : dict) : result dict :=
  transform_amount_fields category category_fields.

Definition transform_transaction (txn : dict) : result dict :=
  transform_amount_fields txn transaction_fields.

(** [dict(c)] on a list element; only a [dict] is copied, the other
    arguments of [dict()] are taken to raise. *)
Definition transform_category_of (c : value) : result value :=
  match c with
  | VDict d => d' ← transform_category d; Ok (VDict d')
  | _ => Raise (TypeError "cannot convert to dict")
  end.

(** The comprehension over [result["categories"]] is modelled on a list;
    iterating any other value is taken to raise. *)
Definition transform_month (month : dict) : result dict :=
  res ← transform_amount_fields month month_fields;
  match res !! "categories" with
  | None => Ok res
  | Some (VList cs) =>
      cs' ← mapM transform_category_of cs;
      Ok (<["categories" := VList cs']> res)
  | Some _ => Raise (TypeError "object is not iterable")
  end.

(** The entity kinds with a fixed list of monetary fields. *)
Inductive entity_kind := Account | Category | Transaction | MonthBudget.

Definition monetary_fields (k : entity_kind) : list string :=
  match k with
  | Account => account_fields
  | Category => category_fields
  | Transaction => transaction_fields
  | MonthBudget => month_fields
  end.

Definition transform (k : entity_kind) (obj : dict) : result dict :=
  match k with
  | Account => transform_account obj
  | Category => transform_category obj
  | Transaction => transform_transaction obj
  | MonthBudget => transform_month obj
  end.

(** ** Error classifier *)

(** An f-string field holding an optional value: [None] prints as "None". *)
Definition fmt_opt_int (o : option Z) : string :=
  match o with Some n => str_of_int n | None => "None" end.

Definition fmt_opt_str (o : option string) : string :=
  match o with Some s => s | None => "None" end.

Definition handle_api_error (e : exn) : string :=
  match e with
  | ApiException status reason =>
      if bool_decide (status = Some 401) then
        "Error: Invalid API key. Check YNAB_API_KEY environment variable."
      else if bool_decide (status = Some 403) then
        "Error: Access forbidden. You don't have permission for this resource."
      else if bool_decide (status = Some 404) then
        "Error: Resource not found. Check the ID is correct."
      else if bool_decide (status = Some 429) then
        "Error: Rate limit exceeded. Wait before making more requests."
      else
        "Error: YNAB API error " +:+ fmt_opt_int status +:+ ": "
          +:+ fmt_opt_str reason
  | Exception type_name msg => "Error: " +:+ type_name +:+ ": " +:+ msg
  end.

(** ** The world a tool call runs in *)

(** A transaction object of the upstream client: the attributes the tools
    read, and the remaining keys of its [to_dict()]. *)
Record TransactionDetail := {
  amount : Z;
  payee_name : option string;
  memo : option string;
  other_fields : dict
}.

(** [t.to_dict()]: the amount is always present, as an [int]. *)
Definition to_dict (t : TransactionDetail) : dict :=
  <["amount" := VInt (amount t)]> (other_fields t).

Record NewTransaction := {
  nt_account_id : string;
  nt_date : string;
  nt_amount : Z;
  nt_payee_id : option string;
  nt_payee_name : option string;
  nt_category_id : option string;
  nt_memo : option string;
  nt_cleared : option string;
  nt_approved : bool
}.

Record SaveScheduledTransaction := {
  st_account_id : string;
  st_date : string;
  st_frequency : string;
  st_amount : Z;
  st_payee_id : option string;
  st_payee_name : option string;
  st_category_id : option string;
  st_memo : option string
}.

(** The calls made to the upstream service. *)
Inductive api_call :=
| GetTransactions (budget_id : string) (since_date : option string)
| GetTransactionsByAccount (budget_id account_id : string)
    (since_date : option string)
| GetTransactionsByCategory (budget_id category_id : string)
    (since_date : option string)
| GetTransactionsByPayee (budget_id payee_id : string)
    (since_date : option string)
| CreateTransaction (budget_id : string) (txn : NewTransaction)
| CreateScheduledTransaction (budget_id : string)
    (txn : SaveScheduledTransaction)
| UpdateMonthCategory (budget_id month category_id : string) (budgeted : Z).

(** What the upstream service answers: a list of transactions, one
    transaction, or a category (already as its [to_dict()]). *)
Inductive api_response :=
| Transactions (l : list TransactionDetail)
| OneTransaction (t : TransactionDetail)
| OneCategory (c : dict).

(** The state a call reads and changes: the process environment, the clock
    (already formatted by [strftime("%Y%m%d_%H%M%S")]), the files written
    so far, the failure (if any) that creating a file at a path meets, the
    behaviour of the upstream service, and the log of the calls made to
    it. *)
Record world := {
  YNAB_API_KEY : option string;
  OUTPUT_DIR : string;
  now : string;
  files : gmap string string;
  fs_error : string -> option exn;
  upstream : api_call -> result api_response;
  calls : list api_call
}.

Definition set_files (w : world) (fs : gmap string string) : world :=
  {| YNAB_API_KEY := YNAB_API_KEY w; OUTPUT_DIR := OUTPUT_DIR w;
     now := now w; files := fs; fs_error := fs_error w;
     upstream := upstream w; calls := calls w |}.

Definition log_call (w : world) (c : api_call) : world :=
  {| YNAB_API_KEY := YNAB_API_KEY w; OUTPUT_DIR := OUTPUT_DIR w;
     now := now w; files := files w; fs_error := fs_error w;
     upstream := upstream w; calls := calls w ++ [c] |}.

(** Computations that read and change the world and may raise. *)
Definition M (A : Type) : Type := world -> result A * world.

#[global] Instance M_ret : MRet M := fun A a w => (Ok a, w).

#[global] Instance M_bind : MBind M := fun A B k m w =>
  match m w with
  | (Ok a, w') => k a w'
  | (Raise e, w') => (Raise e, w')
  end.

Definition lift {A} (r : result A) : M A := fun w => (r, w).

(** [try: body except Exception as e: return handler(e)]. *)
Definition try_except (body : M string) (handler : exn -> string)
  : world -> string * world :=
  fun w =>
    match body w with
    | (Ok s, w') => (s, w')
    | (Raise e, w') => (handler e, w')
    end.

(** The library functions the tools call: [json.dumps(_, indent=2,
    default=str)] (and [json.dump] to a file, which writes the same text),
    and [str(Path(p))]. *)
Class Library := {
  json_dumps : value -> string;
  path_str : string -> string
}.

(** Truth value of an optional string: [None] and the empty string are
    false. *)
Definition truthy (o : option string) : bool :=
  match o with
  | Some s => negb (String.eqb s "")
  | None => false
  end.

Definition CHARACTER_LIMIT : Z := 25000.

Definition get_api_client : M unit :=
  fun w =>
    if truthy (YNAB_API_KEY w) then (Ok tt, w)
    else (Raise (ValueError "YNAB_API_KEY environment variable is required"), w).

(** A call through the upstream client: it is logged, and answered by the
    service. *)
Definition api (c : api_call) : M api_response :=
  fun w => (upstream w c, log_call w c).

Definition expect_transactions (r : api_response)
  : result (list TransactionDetail) :=
  match r with
  | Transactions l => Ok l
  | _ => Raise (Exception "AttributeError" "transactions")
  end.

Definition expect_transaction (r : api_response) : result TransactionDetail :=
  match r with
  | OneTransaction t => Ok t
  | _ => Raise (Exception "AttributeError" "transaction")
  end.

Definition expect_category (r : api_response) : result dict :=
  match r with
  | OneCategory c => Ok c
  | _ => Raise (Exception "AttributeError" "category")
  end.

(** ** Result spiller *)

(** The path [write_to_file] writes to: the caller's path if there is one,
    else a name made of the prefix and the timestamp, under the output
    directory. *)
Definition spill_path `{Library} (w : world) (prefix : string)
  (output_path : option string) : string :=
  if truthy output_path then path_str (default "" output_path)
  else path_str (OUTPUT_DIR w +:+ "/" +:+ prefix +:+ "_" +:+ now w +:+ ".json").

Definition write_to_file `{Library} (data : value) (prefix : string)
  (output_path : option string) : M string :=
  fun w =>
    let filepath := spill_path w prefix output_path in
    match fs_error w filepath with
    | Some e => (Raise e, w)
    | None =>
        (Ok filepath, set_files w (<[filepath := json_dumps data]> (files w)))
    end.

(** ** Tool inputs *)

Module GetTransactionsInput.
Record t := {
  budget_id : string;
  account_id : option string;
  category_id : option string;
  payee_id : option string;
  since_date : option string;
  output_to_file : bool;
  output_path : option string;
  summary_only : bool
}.
End GetTransactionsInput.

Module SearchTransactionsInput.
Record t := {
  budget_id : string;
  query : string;
  since_date : option string;
  output_to_file : bool;
  output_path : option string;
  summary_only : bool
}.
End SearchTransactionsInput.

Definition exactly_one_message : string :=
  "Provide exactly one of amount_milliunits or amount_dollars".

Module UpdateCategoryBudgetInput.
Record t := {
  budget_id : string;
  category_id : string;
  month : string;
  amount_milliunits : option Z;
  amount_dollars : option spec_float
}.

Definition exactly_one_amount (self : t) : result t :=
  let has_milli := bool_decide (amount_milliunits self <> None) in
  let has_dollar := bool_decide (amount_dollars self <> None) in
  if Bool.eqb has_milli has_dollar then Raise (ValueError exactly_one_message)
  else Ok self.
End UpdateCategoryBudgetInput.

Module CreateTransactionInput.
Record t := {
  budget_id : string;
  account_id : string;
  date : string;
  amount_milliunits : option Z;
  amount_dollars : option spec_float;
  payee_id : option string;
  payee_name : option string;
  category_id : option string;
  memo : option string;
  cleared : option string;
  approved : bool
}.

Definition exactly_one_amount (self : t) : result t :=
  let has_milli := bool_decide (amount_milliunits self <> None) in
  let has_dollar := bool_decide (amount_dollars self <> None) in
  if Bool.eqb has_milli has_dollar then Raise (ValueError exactly_one_message)
  else Ok self.
End CreateTransactionInput.

Module CreateScheduledTransactionInput.
Record t := {
  budget_id : string;
  account_id : string;
  date_first : string;
  frequency : string;
  amount_milliunits : option Z;
  amount_dollars : option spec_float;
  payee_id : option string;
  payee_name : option string;
  category_id : option string;
  memo : option string
}.

Definition exactly_one_amount (self : t) : result t :=
  let has_milli := bool_decide (amount_milliunits self <> None) in
  let has_dollar := bool_decide (amount_dollars self <> None) in
  if Bool.eqb has_milli has_dollar then Raise (ValueError exactly_one_message)
  else Ok self.
End CreateScheduledTransactionInput.

(** A model validator that raises [ValueError] makes the construction of
    the input fail with a [ValidationError]; the field constraints
    ([min_length], [pattern]) are checked before it and are taken to hold
    of the fields given. *)
Definition model_validate {T} (validator : T -> result T) (fields : T)
  : result T :=
  match validator fields with
  | Ok self => Ok self
  | Raise (Exception _ msg) => Raise (ValidationError msg)
  | Raise e => Raise e
  end.

(** A tool call: the input object is constructed from the caller's
    arguments, and only then is the tool function entered. *)
Definition call_tool {T} (validator : T -> result T)
  (tool : T -> world -> string * world) (arguments : T)
  : world -> result string * world :=
  fun w =>
    match model_validate validator arguments with
    | Ok params => let '(s, w') := tool params w in (Ok s, w')
    | Raise e => (Raise e, w)
    end.

(** ** Tools *)

(** An element of [sum(...)]: an [int] (or a [bool]); adding any other
    value to an [int] raises. *)
Definition int_of_value (v : value) : result Z :=
  match v with
  | VInt z => Ok z
  | VBool b => Ok (Z.b2z b)
  | _ => Raise (TypeError "unsupported operand type(s) for +")
  end.

(** [sum(t.get("amount_milliunits", 0) for t in transactions)], from the
    accumulator [acc]. *)
Fixpoint sum_amounts (transactions : list dict) (acc : Z) : result Z :=
  match transactions with
  | [] => Ok acc
  | t :: rest =>
      x ← int_of_value (default (VInt 0) (t !! "amount_milliunits"));
      sum_amounts rest (acc + x)
  end.

(** The three keys every summary carries. *)
Definition totals (count : nat) (total_milliunits : Z) (total : string)
  : dict :=
  <["count" := VInt (Z.of_nat count)]>
    (<["total_milliunits" := VInt total_milliunits]>
       (<["total" := VStr total]> ∅)).

(** The full structured document of a listing. *)
Definition listing_document (transactions : list dict) (total_milliunits : Z)
  (total : string) : value :=
  VDict (<["transactions" := VList (VDict <$> transactions)]>
           (totals (length transactions) total_milliunits total)).

Definition transform_all (l : list TransactionDetail) : result (list dict) :=
  mapM (fun t => transform_transaction (to_dict t)) l.

(** The listing endpoint chosen by the filters of the call. *)
Definition listing_call (params : GetTransactionsInput.t) : api_call :=
  let budget_id := GetTransactionsInput.budget_id params in
  let since_date := GetTransactionsInput.since_date params in
  if truthy (GetTransactionsInput.account_id params) then
    GetTransactionsByAccount budget_id
      (default "" (GetTransactionsInput.account_id params)) since_date
  else if truthy (GetTransactionsInput.category_id params) then
    GetTransactionsByCategory budget_id
      (default "" (GetTransactionsInput.category_id params)) since_date
  else if truthy (GetTransactionsInput.payee_id params) then
    GetTransactionsByPayee budget_id
      (default "" (GetTransactionsInput.payee_id params)) since_date
  else GetTransactions budget_id since_date.

Definition ynab_get_transactions `{Library} (params : GetTransactionsInput.t)
  : world -> string * world :=
  let output_path := GetTransactionsInput.output_path params in
  try_except
    (_ ← get_api_client;
     response ← api (listing_call params);
     items ← lift (expect_transactions response);
     transactions ← lift (transform_all items);
     total_milliunits ← lift (sum_amounts transactions 0);
     if GetTransactionsInput.summary_only params then
       total ← lift (milliunits_to_dollars total_milliunits);
       mret (json_dumps
               (VDict (totals (length transactions) total_milliunits total)))
     else
       total ← lift (milliunits_to_dollars total_milliunits);
       let count := length transactions in
       let summary := listing_document transactions total_milliunits total in
       if GetTransactionsInput.output_to_file params then
         filepath ← write_to_file summary "transactions" output_path;
         mret (json_dumps
                 (VDict (<["output_file" := VStr filepath]>
                           (<["message" :=
                                VStr ("Wrote " +:+ str_of_int (Z.of_nat count)
                                        +:+ " transactions to " +:+ filepath)]>
                              (totals count total_milliunits total)))))
       else
         let result := json_dumps summary in
         if (Z.of_nat (String.length result) >? CHARACTER_LIMIT)%Z then
           filepath ← write_to_file summary "transactions" output_path;
           mret (json_dumps
                   (VDict (<["output_file" := VStr filepath]>
                             (<["message" :=
                                  VStr ("Response too large ("
                                          +:+ str_of_int
                                                (Z.of_nat (String.length result))
                                          +:+ " chars). Wrote to "
                                          +:+ filepath)]>
                                (totals count total_milliunits total)))))
         else mret result)
    handle_api_error.

(** [str.lower()], on the ASCII letters. *)
Definition lower_ascii (c : ascii) : ascii :=
  let n := nat_of_ascii c in
  if ((65 <=? n) && (n <=? 90))%nat then ascii_of_nat (n + 32) else c.

Fixpoint lower (s : string) : string :=
  match s with
  | EmptyString => EmptyString
  | String c s' => String (lower_ascii c) (lower s')
  end.

(** [needle in haystack] on strings. *)
Fixpoint is_substring (needle haystack : string) : bool :=
  String.prefix needle haystack
  || match haystack with
     | EmptyString => false
     | String _ rest => is_substring needle rest
     end.

(** The condition of the search loop on one transaction. *)
Definition matches_query (query_lower : string) (t : TransactionDetail)
  : bool :=
  let payee_name := lower (default "" (payee_name t)) in
  let memo := lower (default "" (memo t)) in
  is_substring query_lower payee_name || is_substring query_lower memo.

(** The search loop: the matching transactions, transformed, in order. *)
Fixpoint search_matches (query_lower : string) (l : list TransactionDetail)
  : result (list dict) :=
  match l with
  | [] => Ok []
  | t :: rest =>
      if matches_query query_lower t then
        d ← transform_transaction (to_dict t);
        ds ← search_matches query_lower rest;
        Ok (d :: ds)
      else search_matches query_lower rest
  end.

Definition ynab_search_transactions `{Library}
  (params : SearchTransactionsInput.t) : world -> string * world :=
  let query := SearchTransactionsInput.query params in
  let output_path := SearchTransactionsInput.output_path params in
  try_except
    (_ ← get_api_client;
     response ← api (GetTransactions (SearchTransactionsInput.budget_id params)
                       (SearchTransactionsInput.since_date params));
     items ← lift (expect_transactions response);
     let query_lower := lower query in
     matches ← lift (search_matches query_lower items);
     total_milliunits ← lift (sum_amounts matches 0);
     if SearchTransactionsInput.summary_only params then
       total ← lift (milliunits_to_dollars total_milliunits);
       mret (json_dumps
               (VDict (<["query" := VStr query]>
                         (totals (length matches) total_milliunits total))))
     else
       total ← lift (milliunits_to_dollars total_milliunits);
       let count := length matches in
       let summary :=
         VDict (<["query" := VStr query]>
                  (<["transactions" := VList (VDict <$> matches)]>
                     (totals count total_milliunits total))) in
       if SearchTransactionsInput.output_to_file params then
         filepath ← write_to_file summary "search_transactions" output_path;
         mret (json_dumps
                 (VDict (<["query" := VStr query]>
                           (<["output_file" := VStr filepath]>
                              (<["message" :=
                                   VStr ("Found "
                                           +:+ str_of_int (Z.of_nat count)
                                           +:+ " matching transactions. Wrote to "
                                           +:+ filepath)]>
                                 (totals count total_milliunits total))))))
       else
         let result := json_dumps summary in
         if (Z.of_nat (String.length result) >? CHARACTER_LIMIT)%Z then
           filepath ← write_to_file summary "search_transactions" output_path;
           mret (json_dumps
                   (VDict (<["query" := VStr query]>
                             (<["output_file" := VStr filepath]>
                                (<["message" :=
                                     VStr ("Response too large. Wrote to "
                                             +:+ filepath)]>
                                   (totals count total_milliunits total))))))
         else mret result)
    handle_api_error.

(** The amount a single-amount input denotes, in milliunits. *)
Definition amount_of (amount_milliunits : option Z)
  (amount_dollars : option spec_float) : result Z :=
  match amount_milliunits with
  | Some a => Ok a
  | None =>
      match amount_dollars with
      | Some d => dollars_to_milliunits d
      | None => Raise (TypeError "unsupported operand type(s) for *")
      end
  end.

Definition success (key : string) (entity : dict) : value :=
  VDict (<["success" := VBool true]> (<[key := VDict entity]> ∅)).

Definition ynab_update_category_budget `{Library}
  (params : UpdateCategoryBudgetInput.t) : world -> string * world :=
  try_except
    (budgeted ← lift (amount_of (UpdateCategoryBudgetInput.amount_milliunits params)
                        (UpdateCategoryBudgetInput.amount_dollars params));
     _ ← get_api_client;
     response ← api (UpdateMonthCategory
                       (UpdateCategoryBudgetInput.budget_id params)
                       (UpdateCategoryBudgetInput.month params)
                       (UpdateCategoryBudgetInput.category_id params)
                       budgeted);
     c ← lift (expect_category response);
     category ← lift (transform_category c);
     mret (json_dumps (success "category" category)))
    handle_api_error.

Definition ynab_create_transaction `{Library}
  (params : CreateTransactionInput.t) : world -> string * world :=
  try_except
    (amount ← lift (amount_of (CreateTransactionInput.amount_milliunits params)
                      (CreateTransactionInput.amount_dollars params));
     _ ← get_api_client;
     let txn :=
       {| nt_account_id := CreateTransactionInput.account_id params;
          nt_date := CreateTransactionInput.date params;
          nt_amount := amount;
          nt_payee_id := CreateTransactionInput.payee_id params;
          nt_payee_name := CreateTransactionInput.payee_name params;
          nt_category_id := CreateTransactionInput.category_id params;
          nt_memo := CreateTransactionInput.memo params;
          nt_cleared := CreateTransactionInput.cleared params;
          nt_approved := CreateTransactionInput.approved params |} in
     response ← api (CreateTransaction
                       (CreateTransactionInput.budget_id params) txn);
     t ← lift (expect_transaction response);
     transaction ← lift (transform_transaction (to_dict t));
     mret (json_dumps (success "transaction" transaction)))
    handle_api_error.

Definition ynab_create_scheduled_transaction `{Library}
  (params : CreateScheduledTransactionInput.t) : world -> string * world :=
  try_except
    (amount ← lift (amount_of
                      (CreateScheduledTransactionInput.amount_milliunits params)
                      (CreateScheduledTransactionInput.amount_dollars params));
     _ ← get_api_client;
     let txn :=
       {| st_account_id := CreateScheduledTransactionInput.account_id params;
          st_date := CreateScheduledTransactionInput.date_first params;
          st_frequency := CreateScheduledTransactionInput.frequency params;
          st_amount := amount;
          st_payee_id := CreateScheduledTransactionInput.payee_id params;
          st_payee_name := CreateScheduledTransactionInput.payee_name params;
          st_category_id := CreateScheduledTransactionInput.category_id params;
          st_memo := CreateScheduledTransactionInput.memo params |} in
     response ← api (CreateScheduledTransaction
                       (CreateScheduledTransactionInput.budget_id params) txn);
     t ← lift (expect_transaction response);
     transaction ← lift (transform_transaction (to_dict t));
     mret (json_dumps (success "scheduled_transaction" transaction)))
    handle_api_error.

(** ** Predicates used in the statements *)

(** An amount the codec can display: [milliunits / 1000] does not overflow
    the floats. *)
Definition displayable (a : Z) : Prop := is_ok (milliunits_to_dollars a) = true.

(** A monetary field as the upstream service delivers it: absent, [None],
    or a displayable [int]. *)
Definition amount_field_ok (obj : dict) (field : string) : Prop :=
  obj !! field = None \/ obj !! field = Some VNone
  \/ exists v, obj !! field = Some (VInt v) /\ displayable v.

(** What the transformer does at one monetary field. *)
Definition amount_field_transformed (obj obj' : dict) (field : string) : Prop :=
  (forall v, obj !! field = Some (VInt v) ->
     obj' !! milliunits_key field = Some (VInt v)
     /\ exists s, milliunits_to_dollars v = Ok s /\ obj' !! field = Some (VStr s))
  /\ (obj !! field = None \/ obj !! field = Some VNone ->
      obj' !! field = obj !! field
      /\ obj' !! milliunits_key field = obj !! milliunits_key field).

(** The nested collection of a month: absent, or a list of categories with
    well-formed monetary fields. *)
Definition categories_ok (obj : dict) : Prop :=
  match obj !! "categories" with
  | None => True
  | Some (VList cs) =>
      Forall (fun c => exists d, c = VDict d
                /\ Forall (amount_field_ok d) category_fields) cs
  | Some _ => False
  end.

Definition entity_ok (k : entity_kind) (obj : dict) : Prop :=
  Forall (amount_field_ok obj) (monetary_fields k)
  /\ match k with MonthBudget => categories_ok obj | _ => True end.

(** No field of the list is the [_milliunits] key of a field of the list. *)
Definition keys_separated (fields : list string) : Prop :=
  Forall (fun f => Forall (fun g => f <> milliunits_key g) fields) fields.

(** The sum of the integer amounts of the items of a listing. *)
Definition total_amount (items : list TransactionDetail) : Z :=
  foldr (fun t acc => amount t + acc) 0 items.

(** [needle] occurs in [haystack]. *)
Definition occurs_in (needle haystack : string) : Prop :=
  exists pre post, haystack = pre +:+ needle +:+ post.

Definition exactly_one (A B : Prop) : Prop := (A /\ ~ B) \/ (~ A /\ B).


(** [toDisplay a] prints the sign of [a] and a number of hundredths [c]
    that is [abs a / 1000] rounded to two fractional digits: [c / 100] is
    within half a hundredth of [abs a / 1000]. *)
Definition display_is_rounded (a : Z) : Prop :=
  exists c,
    0 <= c /\ -5 <= 10 * c - Z.abs a <= 5
    /\ milliunits_to_dollars a
       = Ok ((if (a <? 0)%Z then "-$" else "$") +:+ format_cents c).

(** The float a decimal literal with [places] fractional digits denotes:
    the float nearest to [digits / 10 ^ places]. *)
Definition float_of_decimal (digits : Z) (places : Z) : spec_float :=
  SFdiv prec emax (float_of_int digits) (float_of_int (10 ^ places)).

(** The reading of the specification in which [toScaled] truncates the
    exact product of the decimal amount by 1000. *)
Definition scaled_is_exact_truncation : Prop :=
  forall digits places : Z,
    0 <= places ->
    dollars_to_milliunits (float_of_decimal digits places)
    = Ok (Qtrunc (Qmake digits (Z.to_pos (10 ^ places)) * 1000)).

(** ** Sample inputs *)

Definition example_account : dict :=
  <["balance" := VInt 12340]>
    (<["cleared_balance" := VNone]> (<["name" := VStr "Checking"]> ∅)).

Definition coffee_payee : TransactionDetail :=
  {| amount := -4500; payee_name := Some "Blue Bottle Coffee"; memo := None;
     other_fields := {["id" := VStr "t1"]} |}.

Definition coffee_memo : TransactionDetail :=
  {| amount := -12000; payee_name := Some "Staples";
     memo := Some "Office coffee run"; other_fields := {["id" := VStr "t2"]} |}.

Definition groceries : TransactionDetail :=
  {| amount := -58230; payee_name := Some "Corner Market"; memo := None;
     other_fields := {["id" := VStr "t3"]} |}.

(** A stand-in for the library: a serializer that spends a thousand
    characters on every transaction of a listing and two on anything else,
    and paths that are already normal. *)
Fixpoint filler (n : nat) : string :=
  match n with
  | O => EmptyString
  | S n' => String "x" (filler n')
  end.

Definition sample_dumps (v : value) : string :=
  match v with
  | VDict d =>
      match d !! "transactions" with
      | Some (VList l) => filler (1000 * length l)
      | _ => "{}"
      end
  | _ => "{}"
  end.

Definition sample_library : Library :=
  {| json_dumps := sample_dumps; path_str := fun p => p |}.

Definition sample_world (items : list TransactionDetail) : world :=
  {| YNAB_API_KEY := Some "token"; OUTPUT_DIR := "/tmp/ynab-mcp";
     now := "20240131_120000"; files := ∅; fs_error := fun _ => None;
     upstream := fun _ => Ok (Transactions items); calls := [] |}.

Definition permission_denied : exn :=
  Exception "PermissionError" "[Errno 13] Permission denied".

(** The same world on a read-only file system. *)
Definition read_only_world (items : list TransactionDetail) : world :=
  {| YNAB_API_KEY := Some "token"; OUTPUT_DIR := "/tmp/ynab-mcp";
     now := "20240131_120000"; files := ∅;
     fs_error := fun _ => Some permission_denied;
     upstream := fun _ => Ok (Transactions items); calls := [] |}.

Definition listing_params (output_to_file summary_only : bool)
  : GetTransactionsInput.t :=
  {| GetTransactionsInput.budget_id := "last-used";
     GetTransactionsInput.account_id := None;
     GetTransactionsInput.category_id := None;
     GetTransactionsInput.payee_id := None;
     GetTransactionsInput.since_date := None;
     GetTransactionsInput.output_to_file := output_to_file;
     GetTransactionsInput.output_path := None;
     GetTransactionsInput.summary_only := summary_only |}.

Definition search_params (output_to_file summary_only : bool)
  : SearchTransactionsInput.t :=
  {| SearchTransactionsInput.budget_id := "last-used";
     SearchTransactionsInput.query := "coffee";
     SearchTransactionsInput.since_date := None;
     SearchTransactionsInput.output_to_file := output_to_file;
     SearchTransactionsInput.output_path := None;
     SearchTransactionsInput.summary_only := summary_only |}.

Definition sample_items : list TransactionDetail :=
  [coffee_payee; groceries; coffee_memo].

Definition both_amounts : CreateTransactionInput.t :=
  {| CreateTransactionInput.budget_id := "last-used";
     CreateTransactionInput.account_id := "a1";
     CreateTransactionInput.date := "2024-01-31";
     CreateTransactionInput.amount_milliunits := Some 1000;
     CreateTransactionInput.amount_dollars :=
       Some (S754_finite false 4503599627370496 (-52));
     CreateTransactionInput.payee_id := None;
     CreateTransactionInput.payee_name := None;
     CreateTransactionInput.category_id := None;
     CreateTransactionInput.memo := None;
     CreateTransactionInput.cleared := Some "uncleared";
     CreateTransactionInput.approved := true |}.
(** ** Update of a transaction *)

Definition at_most_one_message : string :=
  "Provide at most one of amount_milliunits or amount_dollars".

Module UpdateTransactionInput.
Record t := {
  budget_id : string;
  transaction_id : string;
  account_id : option string;
  date : option string;
  amount_milliunits : option Z;
  amount_dollars : option spec_float;
  payee_id : option string;
  payee_name : option string;
  category_id : option string;
  memo : option string;
  cleared : option string;
  approved : option bool
}.

Definition at_most_one_amount (self : t) : result t :=
  let has_milli := bool_decide (amount_milliunits self <> None) in
  let has_dollar := bool_decide (amount_dollars self <> None) in
  if has_milli && has_dollar then Raise (ValueError at_most_one_message)
  else Ok self.
End UpdateTransactionInput.

(** [if field: update_data[key] = field], for an optional string. *)
Definition set_if_truthy (key : string) (field : option string)
  (update_data : dict) : dict :=
  if truthy field then <[key := VStr (default "" field)]> update_data
  else update_data.

(** The dictionary [update_data] that [ynab_update_transaction] builds
    from its input, the keyword arguments of the object it sends. *)
Definition update_data (params : UpdateTransactionInput.t) : result dict :=
  let update_data : dict := ∅ in
  let update_data :=
    set_if_truthy "account_id" (UpdateTransactionInput.account_id params)
      update_data in
  let update_data :=
    set_if_truthy "date" (UpdateTransactionInput.date params) update_data in
  update_data ←
    match UpdateTransactionInput.amount_milliunits params with
    | Some a => Ok (<["amount" := VInt a]> update_data)
    | None =>
        match UpdateTransactionInput.amount_dollars params with
        | Some d =>
            a ← dollars_to_milliunits d;
            Ok (<["amount" := VInt a]> update_data)
        | None => Ok update_data
        end
    end;
  let update_data :=
    set_if_truthy "payee_id" (UpdateTransactionInput.payee_id params)
      update_data in
  let update_data :=
    set_if_truthy "payee_name" (UpdateTransactionInput.payee_name params)
      update_data in
  let update_data :=
    set_if_truthy "category_id" (UpdateTransactionInput.category_id params)
      update_data in
  let update_data :=
    match UpdateTransactionInput.memo params with
    | Some m => <["memo" := VStr m]> update_data
    | None => update_data
    end in
  let update_data :=
    set_if_truthy "cleared" (UpdateTransactionInput.cleared params)
      update_data in
  let update_data :=
    match UpdateTransactionInput.approved params with
    | Some b => <["approved" := VBool b]> update_data
    | None => update_data
    end in
  Ok update_data.

(** The keys [update_data] can hold. *)
Definition update_keys : list string :=
  ["account_id"; "date"; "amount"; "payee_id"; "payee_name"; "category_id";
   "memo"; "cleared"; "approved"].

(** ** Budget summary: categories by group *)

(** The attributes of a category and of a category group of a budget that
    the summary reads. *)
Module Category.
Record t := {
  category_group_id : string;
  name : string
}.
End Category.

Module CategoryGroup.
Record t := {
  id : string;
  name : string;
  hidden : bool
}.
End CategoryGroup.

(** One iteration of the loop that fills [cats_by_group]. *)
Definition add_category (cats_by_group : gmap string (list string))
  (cat : Category.t) : gmap string (list string) :=
  let gid := Category.category_group_id cat in
  let cats_by_group :=
    if bool_decide (gid ∉ dom cats_by_group)
    then <[gid := []]> cats_by_group else cats_by_group in
  <[gid := (cats_by_group !!! gid ++ [Category.name cat])%list]> cats_by_group.

(** [cats_by_group] after the loop over [budget.categories or []]. *)
Definition cats_by_group (categories : option (list Category.t))
  : gmap string (list string) :=
  foldl add_category ∅ (default [] categories).

(** The names listed under a group: [cats_by_group.get(cg.id, [])]. *)
Definition group_categories (cats_by_group : gmap string (list string))
  (cg : CategoryGroup.t) : list string :=
  default [] (cats_by_group !! CategoryGroup.id cg).

(** The names of the categories of a group, in the order of the budget. *)
Definition names_in_group (gid : string) (categories : list Category.t)
  : list string :=
  Category.name
    <$> List.filter (fun c => bool_decide (Category.category_group_id c = gid))
          categories.

(** The dictionary made for one category group. *)
Definition summary_group (cats_by_group : gmap string (list string))
  (cg : CategoryGroup.t) : dict :=
  <["id" := VStr (CategoryGroup.id cg)]>
    (<["name" := VStr (CategoryGroup.name cg)]>
       (<["hidden" := VBool (CategoryGroup.hidden cg)]>
          (<["categories" := VList (VStr <$> group_categories cats_by_group cg)]>
             ∅))).

(** [summary["category_groups"]] after the loop over
    [budget.category_groups or []]. *)
Definition category_groups (categories : option (list Category.t))
  (groups : option (list CategoryGroup.t)) : list dict :=
  summary_group (cats_by_group categories) <$> default [] groups.

(** The lines of the section [## Category Groups] of the Markdown summary,
    after its heading. *)
Definition category_group_lines (categories : option (list Category.t))
  (groups : option (list CategoryGroup.t)) : list string :=
  let cats_by_group := cats_by_group categories in
  mjoin ((fun cg =>
            if negb (CategoryGroup.hidden cg) then
              (("### " +:+ CategoryGroup.name cg)
                 :: ((fun cat => "  - " +:+ cat)
                       <$> group_categories cats_by_group cg)
                 ++ [""])%list
            else []) <$> default [] groups).

(** ** Category listing *)

(** [repr()] of a container, a built-in of the language, is a parameter. *)
Class Builtins := { repr : value -> string }.

(** [str(v)], what an f-string field prints. *)
Definition str_of_value `{Builtins} (v : value) : string :=
  match v with
  | VNone => "None"
  | VBool true => "True"
  | VBool false => "False"
  | VInt z => str_of_int z
  | VStr s => s
  | VOther s => s
  | VList _ | VDict _ => repr v
  end.

(** Truth value of a value; the other objects ([VOther]: dates,
    identifiers) are taken to be true. *)
Definition value_truthy (v : value) : bool :=
  match v with
  | VNone => false
  | VBool b => b
  | VInt z => negb (z =? 0)%Z
  | VStr s => negb (String.eqb s "")
  | VList l => match l with [] => false | _ => true end
  | VDict d => negb (bool_decide (d = ∅))
  | VOther _ => true
  end.

(** [d[key]]: a missing key raises [KeyError], whose text is the [repr] of
    the key. *)
Definition getitem (d : dict) (key : string) : result value :=
  match d !! key with
  | Some v => Ok v
  | None => Raise (Exception "KeyError" ("'" +:+ key +:+ "'"))
  end.

Definition newline : string := String "010" "".

(** [sep.join(lines)] *)
Definition join (sep : string) (lines : list string) : string :=
  String.concat sep lines.

Inductive ResponseFormat := MARKDOWN | JSON.

(** A category group as the upstream client delivers it with its
    categories, each category by its [to_dict()]. *)
Module CategoryGroupWithCategories.
Record t := {
  id : string;
  name : string;
  hidden : bool;
  categories : option (list dict)
}.
End CategoryGroupWithCategories.

(** The dictionary [group] of [ynab_get_categories]: its four keys are
    fixed, so it is a record; [Group.to_value] is the dictionary itself. *)
Module Group.
Record t := {
  id : string;
  name : string;
  hidden : bool;
  categories : list dict
}.

Definition to_value (g : t) : value :=
  VDict (<["id" := VStr (id g)]>
           (<["name" := VStr (name g)]>
              (<["hidden" := VBool (hidden g)]>
                 (<["categories" := VList (VDict <$> categories g)]> ∅)))).
End Group.

(** One iteration of the loop that builds [groups]. *)
Definition build_group (cg : CategoryGroupWithCategories.t) : result Group.t :=
  categories ← mapM transform_category
                 (default [] (CategoryGroupWithCategories.categories cg));
  Ok {| Group.id := CategoryGroupWithCategories.id cg;
        Group.name := CategoryGroupWithCategories.name cg;
        Group.hidden := CategoryGroupWithCategories.hidden cg;
        Group.categories := categories |}.

(** The lines a category adds to the Markdown listing. *)
Definition category_lines `{Builtins} (cat : dict) : result (list string) :=
  if value_truthy (default VNone (cat !! "hidden")) then Ok []
  else
    name ← getitem cat "name";
    id ← getitem cat "id";
    budgeted ← getitem cat "budgeted";
    activity ← getitem cat "activity";
    balance ← getitem cat "balance";
    Ok ["- **" +:+ str_of_value name +:+ "** (`" +:+ str_of_value id +:+ "`)";
        "  - Budgeted: " +:+ str_of_value budgeted
          +:+ " | Activity: " +:+ str_of_value activity
          +:+ " | Balance: " +:+ str_of_value balance].

(** The lines a group adds to the Markdown listing. *)
Definition group_lines `{Builtins} (g : Group.t) : result (list string) :=
  if Group.hidden g then Ok []
  else
    cats ← mapM category_lines (Group.categories g);
    Ok ((("## " +:+ Group.name g) :: mjoin cats) ++ [""])%list.

Definition categories_markdown `{Builtins} (groups : list Group.t)
  : result string :=
  lines ← mapM group_lines groups;
  Ok (join newline ("# Categories" :: "" :: mjoin lines)).

(** [ynab_get_categories], as a function of the outcome of obtaining the
    client and calling [get_categories]: the category groups, or the
    exception raised. *)
Definition ynab_get_categories `{Library} `{Builtins}
  (response_format : ResponseFormat)
  (response : result (list CategoryGroupWithCategories.t)) : string :=
  let body :=
    data ← response;
    groups ← mapM build_group data;
    match response_format with
    | MARKDOWN => categories_markdown groups
    | JSON => Ok (json_dumps (VList (Group.to_value <$> groups)))
    end in
  match body with
  | Ok text => text
  | Raise e => handle_api_error e
  end.

(** What the Markdown listing shows of the groups: the groups that are not
    hidden, with their categories that are not hidden. *)
Definition visible (groups : list Group.t) : list Group.t :=
  (fun g =>
     {| Group.id := Group.id g; Group.name := Group.name g;
        Group.hidden := Group.hidden g;
        Group.categories :=
          List.filter
            (fun cat => negb (value_truthy (default VNone (cat !! "hidden"))))
            (Group.categories g) |})
    <$> List.filter (fun g => negb (Group.hidden g)) groups.

(** ** Further sample inputs *)



Definition sample_builtins : Builtins := {| repr := fun _ => "[...]" |}.

(** A world without an API key. *)
Definition keyless_world : world :=
  {| YNAB_API_KEY := None; OUTPUT_DIR := "/tmp/ynab-mcp";
     now := "20240131_120000"; files := ∅; fs_error := fun _ => None;
     upstream := fun _ => Ok (Transactions sample_items); calls := [] |}.

Definition not_found : exn := ApiException (Some 404) (Some "Not Found").

(** A world whose upstream service refuses every call. *)
Definition failing_world : world :=
  {| YNAB_API_KEY := Some "token"; OUTPUT_DIR := "/tmp/ynab-mcp";
     now := "20240131_120000"; files := ∅; fs_error := fun _ => None;
     upstream := fun _ => Raise not_found; calls := [] |}.

(** A world whose upstream service answers with one transaction. *)
Definition creating_world : world :=
  {| YNAB_API_KEY := Some "token"; OUTPUT_DIR := "/tmp/ynab-mcp";
     now := "20240131_120000"; files := ∅; fs_error := fun _ => None;
     upstream := fun _ => Ok (OneTransaction coffee_payee); calls := [] |}.

Definition coffee_purchase (amount_milliunits : option Z)
  (amount_dollars : option spec_float) : CreateTransactionInput.t :=
  {| CreateTransactionInput.budget_id := "last-used";
     CreateTransactionInput.account_id := "a1";
     CreateTransactionInput.date := "2024-01-31";
     CreateTransactionInput.amount_milliunits := amount_milliunits;
     CreateTransactionInput.amount_dollars := amount_dollars;
     CreateTransactionInput.payee_id := None;
     CreateTransactionInput.payee_name := Some "Blue Bottle Coffee";
     CreateTransactionInput.category_id := None;
     CreateTransactionInput.memo := None;
     CreateTransactionInput.cleared := Some "uncleared";
     CreateTransactionInput.approved := true |}.

(** An update that blanks the memo, names an empty payee and sets the
    amount. *)
Definition blank_memo_update : UpdateTransactionInput.t :=
  {| UpdateTransactionInput.budget_id := "last-used";
     UpdateTransactionInput.transaction_id := "t1";
     UpdateTransactionInput.account_id := None;
     UpdateTransactionInput.date := None;
     UpdateTransactionInput.amount_milliunits := Some (-4500);
     UpdateTransactionInput.amount_dollars := None;
     UpdateTransactionInput.payee_id := None;
     UpdateTransactionInput.payee_name := Some "";
     UpdateTransactionInput.category_id := None;
     UpdateTransactionInput.memo := Some "";
     UpdateTransactionInput.cleared := None;
     UpdateTransactionInput.approved := None |}.

Definition sample_categories : list Category.t :=
  [ {| Category.category_group_id := "g1"; Category.name := "Rent" |};
    {| Category.category_group_id := "g2"; Category.name := "Dining" |};
    {| Category.category_group_id := "g1"; Category.name := "Utilities" |};
    {| Category.category_group_id := "g9"; Category.name := "Orphan" |} ].

Definition sample_groups : list CategoryGroup.t :=
  [ {| CategoryGroup.id := "g1"; CategoryGroup.name := "Bills";
       CategoryGroup.hidden := false |};
    {| CategoryGroup.id := "g2"; CategoryGroup.name := "Fun";
       CategoryGroup.hidden := true |};
    {| CategoryGroup.id := "g3"; CategoryGroup.name := "Empty";
       CategoryGroup.hidden := false |} ].

Definition rent_category : dict :=
  <["id" := VStr "c1"]>
    (<["name" := VStr "Rent"]>
       (<["hidden" := VBool false]>
          (<["budgeted" := VInt 1500000]>
             (<["activity" := VInt (-1500000)]>
                (<["balance" := VInt 0]> (<["goal_target" := VNone]> ∅)))))).

(** A hidden group holding a category whose budgeted amount is a text. *)
Definition hidden_group : CategoryGroupWithCategories.t :=
  {| CategoryGroupWithCategories.id := "g2";
     CategoryGroupWithCategories.name := "Fun";
     CategoryGroupWithCategories.hidden := true;
     CategoryGroupWithCategories.categories :=
       Some [<["budgeted" := VStr "$1.00"]> (<["name" := VStr "Dining"]> ∅)] |}.

(** ** Single category *)

(** The lines of the block [## Goal] of the Markdown of a category. *)
Definition goal_lines `{Builtins} (category : dict) : result (list string) :=
  if value_truthy (default VNone (category !! "goal_type")) then
    goal_type ← getitem category "goal_type";
    target ←
      (if value_truthy (default VNone (category !! "goal_target")) then
         goal_target ← getitem category "goal_target";
         Ok ["- Target: " +:+ str_of_value goal_target]
       else Ok []);
    progress ←
      match category !! "goal_percentage_complete" with
      | None | Some VNone => Ok []
      | Some _ =>
          percentage ← getitem category "goal_percentage_complete";
          Ok ["- Progress: " +:+ str_of_value percentage +:+ "%"]
      end;
    Ok (["" ; "## Goal"; "- Type: " +:+ str_of_value goal_type]
          ++ target ++ progress)%list
  else Ok [].

Definition category_markdown `{Builtins} (category : dict) : result string :=
  name ← getitem category "name";
  id ← getitem category "id";
  budgeted ← getitem category "budgeted";
  activity ← getitem category "activity";
  balance ← getitem category "balance";
  goal ← goal_lines category;
  Ok (join newline
        (["# " +:+ str_of_value name; "";
          "**ID**: `" +:+ str_of_value id +:+ "`";
          "**Budgeted**: " +:+ str_of_value budgeted;
          "**Activity**: " +:+ str_of_value activity;
          "**Balance**: " +:+ str_of_value balance] ++ goal)%list).

(** [ynab_get_category], as a function of the outcome of obtaining the
    client and calling [get_category_by_id]: the [to_dict()] of the
    category, or the exception raised. *)
Definition ynab_get_category `{Library} `{Builtins}
  (response_format : ResponseFormat) (response : result dict) : string :=
  let body :=
    data ← response;
    category ← transform_category data;
    match response_format with
    | MARKDOWN => category_markdown category
    | JSON => Ok (json_dumps (VDict category))
    end in
  match body with
  | Ok text => text
  | Raise e => handle_api_error e
  end.

(** A category with a goal whose target is zero. *)
Definition zero_target_category : dict :=
  <["goal_type" := VStr "TB"]>
    (<["goal_target" := VInt 0]>
       (<["goal_percentage_complete" := VInt 0]> rent_category)).

(** * Properties *)

(** ** Strings *)

Lemma length_app (s1 s2 : string) :
  String.length (s1 +:+ s2) = (String.length s1 + String.length s2)%nat.
Proof. induction s1 as [|c s1 IH]; simpl; [done | by rewrite IH]. Qed.

Lemma app_inj_r (s1 s2 suffix : string) :
  s1 +:+ suffix = s2 +:+ suffix -> s1 = s2.
Proof.
  revert s2. induction s1 as [|c s1 IH]; intros [|c' s2] Heq; simpl in *.
  - done.
  - apply (f_equal String.length) in Heq.
    rewrite ?length_app in Heq. simpl in Heq. rewrite ?length_app in Heq. lia.
  - apply (f_equal String.length) in Heq.
    rewrite ?length_app in Heq. simpl in Heq. rewrite ?length_app in Heq. lia.
  - injection Heq as -> Heq. f_equal. by apply IH.
Qed.

Lemma milliunits_key_inj (f g : string) :
  milliunits_key f = milliunits_key g -> f = g.
Proof. apply app_inj_r. Qed.

Lemma app_assoc_s (a b c : string) : (a +:+ b) +:+ c = a +:+ b +:+ c.
Proof.
  induction a as [|x a IH]; [done|].
  change (String x ((a +:+ b) +:+ c) = String x (a +:+ b +:+ c)).
  by rewrite IH.
Qed.

Lemma app_nil_r_s (a : string) : a +:+ "" = a.
Proof.
  induction a as [|x a IH]; [done|].
  change (String x (a +:+ "") = String x a). by rewrite IH.
Qed.

Lemma occurs_in_end (pre sep s : string) : occurs_in s (pre +:+ sep +:+ s).
Proof.
  exists (pre +:+ sep), "". rewrite app_nil_r_s. symmetry. apply app_assoc_s.
Qed.

Lemma occurs_in_middle (pre s post : string) : occurs_in s (pre +:+ s +:+ post).
Proof. by exists pre, post. Qed.

Lemma prefix_spec (a b : string) :
  String.prefix a b = true <-> exists post, b = a +:+ post.
Proof.
  revert b. induction a as [|c a IH]; intros [|c' b]; simpl.
  - split; [by exists "" | done].
  - split; [by eexists | done].
  - split; [done | by intros [post Hpost]].
  - destruct (ascii_dec c c') as [->|Hne].
    + rewrite IH. split; intros [post Hpost]; exists post.
      * by rewrite Hpost.
      * change (String c' b = String c' (a +:+ post)) in Hpost. congruence.
    + split; [done|]. intros [post Hpost].
      change (String c' b = String c (a +:+ post)) in Hpost. congruence.
Qed.


(** ** Binary64 arithmetic *)

Lemma digits2_pos_bounds (p : positive) :
  2 ^ (Zpos (digits2_pos p) - 1) <= Zpos p < 2 ^ Zpos (digits2_pos p).
Proof.
  induction p as [p IH|p IH|]; simpl digits2_pos.
  - rewrite Pos2Z.inj_succ.
    replace (Z.succ (Zpos (digits2_pos p)) - 1) with (Z.succ (Zpos (digits2_pos p) - 1)) by lia.
    rewrite !Z.pow_succ_r by lia. lia.
  - rewrite Pos2Z.inj_succ.
    replace (Z.succ (Zpos (digits2_pos p)) - 1) with (Z.succ (Zpos (digits2_pos p) - 1)) by lia.
    rewrite !Z.pow_succ_r by lia. lia.
  - simpl. lia.
Qed.

Lemma digits2_pos_unique (p : positive) (d : Z) :
  2 ^ (d - 1) <= Zpos p < 2 ^ d -> 0 < d -> Zpos (digits2_pos p) = d.
Proof.
  intros [Hlo Hhi] Hd. pose proof (digits2_pos_bounds p) as [Hlo' Hhi'].
  destruct (Z.lt_trichotomy (Zpos (digits2_pos p)) d) as [Hlt|[Heq|Hgt]]; [|done|].
  - assert (2 ^ Zpos (digits2_pos p) <= 2 ^ (d - 1)) by (apply Z.pow_le_mono_r; lia).
    lia.
  - assert (2 ^ d <= 2 ^ (Zpos (digits2_pos p) - 1)) by (apply Z.pow_le_mono_r; lia).
    lia.
Qed.

Lemma fexp_normal (x : Z) : -1021 <= x -> fexp prec emax x = x - 53.
Proof. intros Hx. unfold fexp, emin, prec, emax. lia. Qed.

Lemma new_location_1000 (r : Z) :
  new_location 1000 r
  = if (r =? 0)%Z then loc_Exact else loc_Inexact (2 * r ?= 1000)%Z.
Proof. reflexivity. Qed.

Lemma Zdigits2_eq (q d : Z) :
  2 ^ (d - 1) <= q < 2 ^ d -> 0 < d -> Zdigits2 q = d.
Proof.
  intros Hq Hd. assert (0 < q) by (pose proof (Z.pow_pos_nonneg 2 (d - 1)); lia).
  destruct q as [|p|p]; try lia. simpl. by apply digits2_pos_unique.
Qed.

Lemma shr_m_of_loc (m : Z) (l : location) : shr_m (shr_record_of_loc m l) = m.
Proof. by destruct l as [|[]]. Qed.

Lemma loc_of_shr_record_of_loc (m : Z) (l : location) :
  loc_of_shr_record (shr_record_of_loc m l) = l.
Proof. by destruct l as [|[]]. Qed.

Lemma shr_fexp_53 (q e : Z) (l : location) :
  4503599627370496 <= q < 9007199254740992 -> -1074 <= e ->
  shr_fexp prec emax q e l = (shr_record_of_loc q l, e).
Proof.
  intros Hq He. unfold shr_fexp.
  rewrite (Zdigits2_eq q 53) by (change (2 ^ (53 - 1)) with 4503599627370496;
    change (2 ^ 53) with 9007199254740992; lia).
  rewrite fexp_normal by lia.
  replace (53 + e - 53 - e) with 0 by lia. reflexivity.
Qed.

Lemma shr_fexp_54 (q e : Z) (l : location) :
  9007199254740992 <= q < 18014398509481984 -> -1074 <= e ->
  shr_fexp prec emax q e l = (shr_1 (shr_record_of_loc q l), e + 1).
Proof.
  intros Hq He. unfold shr_fexp.
  rewrite (Zdigits2_eq q 54) by (change (2 ^ (54 - 1)) with 9007199254740992;
    change (2 ^ 54) with 18014398509481984; lia).
  rewrite fexp_normal by lia.
  replace (54 + e - 53 - e) with 1 by lia. reflexivity.
Qed.

Lemma round_nearest_even_bounds (q : Z) (l : location) :
  q <= round_nearest_even q l <= q + 1.
Proof.
  unfold round_nearest_even. destruct l as [|[]]; try lia.
  destruct (Z.even q); lia.
Qed.

Lemma binary_round_aux_53 (sx : bool) (q e : Z) (l : location) :
  4503599627370496 <= q < 9007199254740992 -> -1074 <= e <= 971 ->
  round_nearest_even q l < 9007199254740992 ->
  binary_round_aux prec emax sx q e l
  = S754_finite sx (Z.to_pos (round_nearest_even q l)) e.
Proof.
  intros Hq He Hround. unfold binary_round_aux.
  rewrite shr_fexp_53 by lia.
  rewrite shr_m_of_loc, loc_of_shr_record_of_loc.
  pose proof (round_nearest_even_bounds q l) as Hb.
  rewrite shr_fexp_53 by lia. rewrite shr_m_of_loc.
  destruct (round_nearest_even q l) as [|m|m]; try lia.
  unfold emax, prec. rewrite (proj2 (Z.leb_le e (1024 - 53))) by lia.
  reflexivity.
Qed.

Lemma shr_1_m (m : Z) (r s : bool) :
  0 <= m ->
  shr_1 {| shr_m := m; shr_r := r; shr_s := s |}
  = {| shr_m := m / 2; shr_r := Z.odd m; shr_s := r || s |}.
Proof.
  intros Hm. destruct m as [|[p|p|]|]; try lia; try reflexivity.
  - simpl. f_equal. rewrite Pos2Z.inj_xI.
    apply (Z.div_unique_pos _ 2 _ 1); lia.
  - simpl. f_equal. rewrite Pos2Z.inj_xO.
    apply (Z.div_unique_pos _ 2 _ 0); lia.
Qed.

Lemma binary_round_aux_54 (sx : bool) (q e : Z) (l : location) :
  9007199254740992 <= q < 18014398509481982 -> -1074 <= e <= 970 ->
  binary_round_aux prec emax sx q e l
  = S754_finite sx
      (Z.to_pos (round_nearest_even (q / 2)
                   (loc_of_shr_record (shr_1 (shr_record_of_loc q l)))))
      (e + 1).
Proof.
  intros Hq He. unfold binary_round_aux.
  rewrite shr_fexp_54 by lia.
  assert (Hm : shr_m (shr_1 (shr_record_of_loc q l)) = q / 2).
  { destruct l as [|[]]; simpl shr_record_of_loc; by rewrite shr_1_m by lia. }
  rewrite Hm.
  set (l' := loc_of_shr_record _).
  pose proof (round_nearest_even_bounds (q / 2) l') as Hb.
  assert (4503599627370496 <= q / 2 < 9007199254740991).
  { split; [apply Z.div_le_lower_bound; lia | apply Z.div_lt_upper_bound; lia]. }
  rewrite shr_fexp_53 by lia. rewrite shr_m_of_loc.
  destruct (round_nearest_even (q / 2) l') as [|m|m]; try lia.
  unfold emax, prec. rewrite (proj2 (Z.leb_le (e + 1) (1024 - 53))) by lia.
  reflexivity.
Qed.

(** The quotient of a positive integer below [1000 * 2^44] by 1000: a
    finite float [m * 2^(-E)] with [E >= 9], within half a unit in the
    last place of the exact quotient. *)
Lemma SFdiv_1000 (sx : bool) (pn : positive) :
  Zpos pn < 17592186044416000 ->
  exists m E : positive,
    SFdiv prec emax (S754_finite sx pn 0) (S754_finite false 1000 0)
    = S754_finite sx m (Zneg E)
    /\ 9 <= Zpos E
    /\ -500 <= 1000 * Zpos m - Zpos pn * 2 ^ Zpos E <= 500.
Proof.
  intros Hn.
  pose proof (digits2_pos_bounds pn) as HD.
  unfold SFdiv, SFdiv_core_binary.
  change (Zdigits2 (Zpos pn)) with (Zpos (digits2_pos pn)).
  change (Zdigits2 1000) with 10.
  set (D := Zpos (digits2_pos pn)) in *.
  assert (HD1 : 1 <= D) by (unfold D; lia).
  assert (HD54 : D <= 54).
  { destruct (Z_le_gt_dec D 54) as [?|Hgt]; [done|].
    assert (2 ^ 54 <= 2 ^ (D - 1)) by (apply Z.pow_le_mono_r; lia).
    change (2 ^ 54) with 18014398509481984 in *. lia. }
  rewrite fexp_normal by lia.
  replace (Z.min (D + 0 - (10 + 0) - 53) (0 - 0)) with (D - 63) by lia.
  replace (0 - 0 - (D - 63)) with (63 - D) by lia.
  assert (Hpow : 2 ^ (D - 1) * 2 ^ (63 - D) = 4611686018427387904).
  { rewrite <- Z.pow_add_r by lia. by replace (D - 1 + (63 - D)) with 62 by lia. }
  assert (Hpow' : 2 ^ D = 2 * 2 ^ (D - 1)).
  { rewrite <- Z.pow_succ_r by lia. f_equal. lia. }
  assert (Hs9 : 2 ^ (63 - D) = 512 * 2 ^ (54 - D)).
  { change 512 with (2 ^ 9). rewrite <- Z.pow_add_r by lia. f_equal. lia. }
  assert (Hk : 1 <= 2 ^ (54 - D)) by (pose proof (Z.pow_pos_nonneg 2 (54 - D)); lia).
  destruct (63 - D) as [|s|s] eqn:Hs; [lia| |lia].
  rewrite Z.shiftl_mul_pow2 by lia.
  set (P := 2 ^ Zpos s) in *.
  assert (HP : 4611686018427387904 <= Zpos pn * P < 9223372036854775808) by nia.
  pose proof (Z_div_mod (Zpos pn * P) 1000 ltac:(lia)) as Hdm.
  destruct (Z.div_eucl (Zpos pn * P) 1000) as [q r]. destruct Hdm as [Hqr Hr].
  rewrite new_location_1000, xorb_false_r.
  set (l := if (r =? 0)%Z then loc_Exact else loc_Inexact (2 * r ?= 1000)%Z).
  destruct (Z_lt_ge_dec q 9007199254740992) as [Hq|Hq].
  - (* the quotient has 53 bits *)
    assert (Hround : -500 <= 1000 * round_nearest_even q l - Zpos pn * P <= 500).
    { unfold l, round_nearest_even.
      destruct (Z.eqb_spec r 0) as [->|Hr0]; [lia|].
      destruct (Z.compare_spec (2 * r) 1000); [destruct (Z.even q)| |]; lia. }
    pose proof (round_nearest_even_bounds q l) as Hb.
    assert (Hlt : round_nearest_even q l < 9007199254740992).
    { set (X := Zpos pn * 2 ^ (54 - D)) in *.
      assert (HX : Zpos pn * P = 512 * X) by (unfold X; lia).
      assert (X < 9007199254740992 * 1000) by (unfold X; nia || lia).
      lia. }
    rewrite binary_round_aux_53 by lia.
    destruct (round_nearest_even q l) as [|m|m] eqn:Hm; try lia.
    exists m, s. replace (D - 63) with (Zneg s) by lia.
    split; [done|]. split; [lia|]. simpl Z.to_pos. fold P. lia.
  - (* the quotient has 54 bits *)
    assert (HD53 : D <= 53).
    { destruct (Z.eq_dec D 54) as [HDeq|?]; [|lia].
      rewrite HDeq in Hs9. change (2 ^ (54 - 54)) with 1 in Hs9. lia. }
    assert (Hs1 : Zpos s = Zpos (Pos.pred s) + 1) by lia.
    assert (HP2 : P = 2 * 2 ^ Zpos (Pos.pred s)).
    { unfold P. rewrite Hs1 at 1. rewrite Z.pow_add_r by lia. lia. }
    set (P' := 2 ^ Zpos (Pos.pred s)) in *.
    rewrite binary_round_aux_54 by lia.
    set (l' := loc_of_shr_record _).
    pose proof (Z.div2_odd q) as Hodd. rewrite Z.div2_div in Hodd.
    assert (Hround : -500 <= 1000 * round_nearest_even (q / 2) l'
                              - Zpos pn * P' <= 500).
    { unfold l', l.
      destruct (Z.eqb_spec r 0) as [->|Hr0].
      - simpl shr_record_of_loc. rewrite shr_1_m by lia.
        destruct (Z.odd q); simpl in *; [destruct (Z.even (q / 2))|]; lia.
      - destruct (Z.compare_spec (2 * r) 1000); simpl shr_record_of_loc;
          rewrite shr_1_m by lia; destruct (Z.odd q); simpl in *; lia. }
    pose proof (round_nearest_even_bounds (q / 2) l') as Hb.
    assert (4503599627370496 <= q / 2) by (apply Z.div_le_lower_bound; lia).
    destruct (round_nearest_even (q / 2) l') as [|m|m] eqn:Hm; try lia.
    exists m, (Pos.pred s). replace (D - 63 + 1) with (Zneg (Pos.pred s)) by lia.
    split; [done|]. split; [lia|]. simpl Z.to_pos. fold P'. lia.
Qed.

Lemma shr_m_shr_1 (mrs : shr_record) :
  0 <= shr_m mrs -> shr_m (shr_1 mrs) = shr_m mrs / 2.
Proof.
  destruct mrs as [m r s]. intros Hm. simpl in Hm. by rewrite shr_1_m.
Qed.

Lemma shr_m_iter_pos (p : positive) (mrs : shr_record) :
  0 <= shr_m mrs ->
  shr_m (SpecFloat.iter_pos shr_1 p mrs) = shr_m mrs / 2 ^ Zpos p.
Proof.
  revert mrs. induction p as [p IH|p IH|]; intros mrs Hm; simpl SpecFloat.iter_pos.
  - assert (Hpow : 0 < 2 ^ Zpos p) by (apply Z.pow_pos_nonneg; lia).
    pose proof (shr_m_shr_1 mrs Hm) as H1.
    assert (H1' : 0 <= shr_m (shr_1 mrs)) by (rewrite H1; apply Z.div_pos; lia).
    pose proof (IH _ H1') as H2.
    assert (H2' : 0 <= shr_m (SpecFloat.iter_pos shr_1 p (shr_1 mrs)))
      by (rewrite H2; apply Z.div_pos; lia).
    rewrite (IH _ H2'), H2, H1, !Z.div_div by lia. f_equal.
    replace (Zpos p~1) with (1 + Zpos p + Zpos p) by lia.
    rewrite !Z.pow_add_r by lia. change (2 ^ 1) with 2. lia.
  - assert (Hpow : 0 < 2 ^ Zpos p) by (apply Z.pow_pos_nonneg; lia).
    pose proof (IH _ Hm) as H1.
    assert (H1' : 0 <= shr_m (SpecFloat.iter_pos shr_1 p mrs))
      by (rewrite H1; apply Z.div_pos; lia).
    rewrite (IH _ H1'), H1, !Z.div_div by lia. f_equal.
    replace (Zpos p~0) with (Zpos p + Zpos p) by lia.
    rewrite !Z.pow_add_r by lia. lia.
  - rewrite shr_m_shr_1 by done. reflexivity.
Qed.

Lemma round_tail (sx : bool) (m1 e1 : Z) (l1 : location) :
  4503599627370496 <= m1 < 9007199254740992 -> -1074 <= e1 ->
  exists (m : positive) (e2 : Z),
    e1 <= e2 <= e1 + 1
    /\ (let '(mrs, e) :=
          shr_fexp prec emax (round_nearest_even m1 l1) e1 loc_Exact in
        match shr_m mrs with
        | Z0 => S754_zero sx
        | Zpos m => if (e <=? emax - prec)%Z then S754_finite sx m e
                    else S754_infinity sx
        | Zneg _ => S754_nan
        end)
       = if (e2 <=? 971)%Z then S754_finite sx m e2 else S754_infinity sx.
Proof.
  intros Hm He. pose proof (round_nearest_even_bounds m1 l1) as Hb.
  destruct (Z_lt_ge_dec (round_nearest_even m1 l1) 9007199254740992) as [Hlt|Hge].
  - rewrite shr_fexp_53 by lia. rewrite shr_m_of_loc.
    destruct (round_nearest_even m1 l1) as [|m|m]; try lia.
    exists m, e1. split; [lia | reflexivity].
  - assert (Heq : round_nearest_even m1 l1 = 9007199254740992) by lia.
    rewrite Heq, shr_fexp_54 by lia.
    exists 4503599627370496%positive, (e1 + 1). split; [lia | reflexivity].
Qed.

(** Rounding a mantissa of at least 53 bits gives a finite float of the
    same sign, or overflows. *)
Lemma binary_round_aux_shape (sx : bool) (q e : Z) (l : location) :
  4503599627370496 <= q -> -1000 <= e ->
  exists (m : positive) (e2 : Z),
    e2 <= e + Zdigits2 q - 52
    /\ binary_round_aux prec emax sx q e l
       = if (e2 <=? 971)%Z then S754_finite sx m e2 else S754_infinity sx.
Proof.
  intros Hq He. destruct q as [|pq|pq]; try lia.
  pose proof (digits2_pos_bounds pq) as HD.
  change (Zdigits2 (Zpos pq)) with (Zpos (digits2_pos pq)).
  unfold binary_round_aux. unfold shr_fexp at 1.
  change (Zdigits2 (Zpos pq)) with (Zpos (digits2_pos pq)).
  set (D := Zpos (digits2_pos pq)) in *.
  assert (HD53 : 53 <= D).
  { destruct (Z_le_gt_dec 53 D) as [?|Hlt]; [done|].
    assert (2 ^ D <= 2 ^ 52) by (apply Z.pow_le_mono_r; lia).
    change (2 ^ 52) with 4503599627370496 in *. lia. }
  rewrite fexp_normal by lia.
  replace (D + e - 53 - e) with (D - 53) by lia.
  destruct (D - 53) as [|k|k] eqn:Hk; [| |lia].
  - assert (D = 53) as HD' by lia. rewrite HD' in HD.
    change (2 ^ (53 - 1)) with 4503599627370496 in HD.
    change (2 ^ 53) with 9007199254740992 in HD.
    unfold shr. rewrite shr_m_of_loc, loc_of_shr_record_of_loc.
    destruct (round_tail sx (Zpos pq) e l) as (m & e2 & He2 & Heq); [lia..|].
    exists m, e2. split; [lia | exact Heq].
  - unfold shr.
    set (mrs := SpecFloat.iter_pos shr_1 k (shr_record_of_loc (Zpos pq) l)).
    assert (Hm1 : shr_m mrs = Zpos pq / 2 ^ Zpos k).
    { unfold mrs. rewrite shr_m_iter_pos; rewrite shr_m_of_loc; lia. }
    assert (Hpow : 0 < 2 ^ Zpos k) by (apply Z.pow_pos_nonneg; lia).
    assert (Hlo : 2 ^ (D - 1) = 2 ^ Zpos k * 4503599627370496).
    { replace (D - 1) with (Zpos k + 52) by lia. by rewrite Z.pow_add_r by lia. }
    assert (Hhi : 2 ^ D = 2 ^ Zpos k * 9007199254740992).
    { replace D with (Zpos k + 53) by lia. by rewrite Z.pow_add_r by lia. }
    assert (Hb : 4503599627370496 <= shr_m mrs < 9007199254740992).
    { rewrite Hm1. split.
      - apply Z.div_le_lower_bound; lia.
      - apply Z.div_lt_upper_bound; lia. }
    destruct (round_tail sx (shr_m mrs) (e + Zpos k) (loc_of_shr_record mrs))
      as (m & e2 & He2 & Heq); [lia..|].
    exists m, e2. split; [lia | exact Heq].
Qed.

Lemma Zdigits2_le (q d : Z) : 0 < q < 2 ^ d -> 0 <= d -> Zdigits2 q <= d.
Proof.
  intros Hq Hd. destruct q as [|p|p]; try lia. simpl.
  pose proof (digits2_pos_bounds p) as [Hlo _].
  destruct (Z_le_gt_dec (Zpos (digits2_pos p)) d) as [?|Hgt]; [done|].
  assert (2 ^ d <= 2 ^ (Zpos (digits2_pos p) - 1))
    by (apply Z.pow_le_mono_r; lia).
  lia.
Qed.

(** The quotient of any positive integer by 1000: a finite float of the
    sign of the dividend, or an overflow. *)
Lemma SFdiv_1000_shape (sx : bool) (pn : positive) :
  exists (m : positive) (e2 : Z),
    e2 <= Zpos (digits2_pos pn) - 61
    /\ SFdiv prec emax (S754_finite sx pn 0) (S754_finite false 1000 0)
       = if (e2 <=? 971)%Z then S754_finite sx m e2 else S754_infinity sx.
Proof.
  pose proof (digits2_pos_bounds pn) as HD.
  unfold SFdiv, SFdiv_core_binary.
  change (Zdigits2 (Zpos pn)) with (Zpos (digits2_pos pn)).
  change (Zdigits2 1000) with 10.
  set (D := Zpos (digits2_pos pn)) in *.
  assert (HD1 : 1 <= D) by (unfold D; lia).
  rewrite fexp_normal by lia.
  set (e' := Z.min (D + 0 - (10 + 0) - 53) (0 - 0)).
  assert (He' : e' = Z.min (D - 63) 0) by (unfold e'; lia).
  assert (Hpow' : 2 ^ D = 2 * 2 ^ (D - 1)).
  { rewrite <- Z.pow_succ_r by lia. f_equal. lia. }
  assert (Hm' : exists m' X,
             (match 0 - 0 - e' with
              | Zpos _ => Z.shiftl (Zpos pn) (0 - 0 - e')
              | Z0 => Zpos pn
              | Zneg _ => 0
              end) = m'
             /\ 4611686018427387904 <= m' < 2 ^ X
             /\ 63 <= X /\ e' + X <= D /\ 0 <= e' + X).
  { destruct (0 - 0 - e') as [|s|s] eqn:Hs; [| |lia].
    - exists (Zpos pn), D. split; [done|].
      assert (63 <= D) by lia.
      assert (2 ^ 62 <= 2 ^ (D - 1)) by (apply Z.pow_le_mono_r; lia).
      change (2 ^ 62) with 4611686018427387904 in *. lia.
    - exists (Zpos pn * 2 ^ Zpos s), 63. split.
      { by rewrite Z.shiftl_mul_pow2 by lia. }
      assert (Zpos s = 63 - D) as -> by lia.
      assert (2 ^ (D - 1) * 2 ^ (63 - D) = 4611686018427387904).
      { rewrite <- Z.pow_add_r by lia.
        by replace (D - 1 + (63 - D)) with 62 by lia. }
      change (2 ^ 63) with 9223372036854775808. nia. }
  destruct Hm' as (m' & X & -> & Hm' & HX & HeX & HeX').
  pose proof (Z_div_mod m' 1000 ltac:(lia)) as Hdm.
  destruct (Z.div_eucl m' 1000) as [q r]. destruct Hdm as [Hqr Hr].
  rewrite xorb_false_r.
  destruct (binary_round_aux_shape sx q e' (new_location 1000 r))
    as (m & e2 & He2 & Heq); [lia..|].
  exists m, e2. split; [|exact Heq].
  assert (Zdigits2 q <= X - 9); [|lia].
  apply Zdigits2_le; [|lia]. split; [lia|].
  assert (2 ^ X = 512 * 2 ^ (X - 9)).
  { change 512 with (2 ^ 9). rewrite <- Z.pow_add_r by lia. f_equal. lia. }
  lia.
Qed.

(** ** MonetaryAmount codec *)

Lemma displayable_ok (v : Z) :
  displayable v -> exists s, milliunits_to_dollars v = Ok s.
Proof.
  unfold displayable. destruct (milliunits_to_dollars v) as [s|e]; [eauto|done].
Qed.

Lemma round_half_even_bounds (n d : Z) :
  0 < d -> 0 <= n ->
  0 <= round_half_even n d /\ - d <= 2 * (round_half_even n d * d - n) <= d.
Proof.
  intros Hd Hn. unfold round_half_even.
  pose proof (Z.div_mod n d ltac:(lia)) as Hdm.
  pose proof (Z.mod_pos_bound n d Hd) as Hr.
  pose proof (Z.div_pos n d Hn Hd) as Hq.
  set (q := n / d) in *. set (r := n mod d) in *.
  destruct (Z.compare_spec (2 * r) d); [destruct (Z.even q)| |]; nia.
Qed.

Lemma cents_within_half (n m E : Z) :
  9 <= E -> 0 <= m -> -500 <= 1000 * m - n * 2 ^ E <= 500 ->
  0 <= round_half_even (100 * m) (2 ^ E)
  /\ -5 <= 10 * round_half_even (100 * m) (2 ^ E) - n <= 5.
Proof.
  intros HE Hm Hdiv.
  assert (HQ : 512 <= 2 ^ E).
  { change 512 with (2 ^ 9). apply Z.pow_le_mono_r; lia. }
  destruct (round_half_even_bounds (100 * m) (2 ^ E)) as [Hc Hround]; [lia..|].
  set (c := round_half_even _ _) in *. set (Q := 2 ^ E) in *.
  split; [done|]. nia.
Qed.

Lemma append_nil_l (s : string) : "" +:+ s = s.
Proof. reflexivity. Qed.

Lemma milliunits_to_dollars_pos (p : positive) :
  Zpos p < 17592186044416000 -> display_is_rounded (Zpos p).
Proof.
  intros Hp. destruct (SFdiv_1000 false p Hp) as (m & E & Hdiv & HE & Herr).
  destruct (cents_within_half (Zpos p) (Zpos m) (Zpos E)) as [Hc Hcents];
    [lia..|].
  exists (round_half_even (100 * Zpos m) (2 ^ Zpos E)).
  split; [done|]. split; [simpl Z.abs; lia|].
  unfold milliunits_to_dollars, int_truediv. simpl float_of_int.
  change (1000 =? 0)%Z with false. cbv iota. rewrite Hdiv. reflexivity.
Qed.

Lemma milliunits_to_dollars_neg (p : positive) :
  Zpos p < 17592186044416000 -> display_is_rounded (Zneg p).
Proof.
  intros Hp. destruct (SFdiv_1000 true p Hp) as (m & E & Hdiv & HE & Herr).
  destruct (cents_within_half (Zpos p) (Zpos m) (Zpos E)) as [Hc Hcents];
    [lia..|].
  exists (round_half_even (100 * Zpos m) (2 ^ Zpos E)).
  split; [done|]. split; [simpl Z.abs; lia|].
  unfold milliunits_to_dollars, int_truediv. simpl float_of_int.
  change (1000 =? 0)%Z with false. cbv iota. rewrite Hdiv. reflexivity.
Qed.

Lemma milliunits_to_dollars_shape (a : Z) :
  exists (m : positive) (e2 : Z),
    (Z.abs a < 2 ^ 1000 -> e2 <= 971)
    /\ milliunits_to_dollars a
       = match a with
         | Z0 => Ok "$0.00"
         | Zpos _ =>
             if (e2 <=? 971)%Z
             then Ok ("$" +:+ format_2f (S754_finite false m e2))
             else Raise (OverflowError
                           "integer division result too large for a float")
         | Zneg _ =>
             if (e2 <=? 971)%Z
             then Ok ("-$" +:+ format_2f (S754_finite false m e2))
             else Raise (OverflowError
                           "integer division result too large for a float")
         end.
Proof.
  destruct a as [|p|p].
  - exists 1%positive, 0. split; [done | reflexivity].
  - destruct (SFdiv_1000_shape false p) as (m & e2 & He2 & Hdiv).
    exists m, e2. split.
    + intros Ha. assert (Zdigits2 (Zpos p) <= 1000)
        by (apply Zdigits2_le; simpl Z.abs in Ha; lia).
      simpl Zdigits2 in *. lia.
    + unfold milliunits_to_dollars, int_truediv. simpl float_of_int.
      change (1000 =? 0)%Z with false. cbv iota. rewrite Hdiv.
      by destruct (e2 <=? 971)%Z.
  - destruct (SFdiv_1000_shape true p) as (m & e2 & He2 & Hdiv).
    exists m, e2. split.
    + intros Ha. assert (Zdigits2 (Zpos p) <= 1000)
        by (apply Zdigits2_le; simpl Z.abs in Ha; lia).
      simpl Zdigits2 in *. lia.
    + unfold milliunits_to_dollars, int_truediv. simpl float_of_int.
      change (1000 =? 0)%Z with false. cbv iota. rewrite Hdiv.
      by destruct (e2 <=? 971)%Z.
Qed.



Lemma display_in_range (a : Z) :
  Z.abs a < 17592186044416000 -> display_is_rounded a.
Proof.
  intros Ha. destruct a as [|p|p].
  - exists 0. by vm_compute.
  - apply milliunits_to_dollars_pos. lia.
  - apply milliunits_to_dollars_neg. lia.
Qed.

Lemma displayable_in_range (a : Z) :
  Z.abs a < 17592186044416000 -> displayable a.
Proof.
  intros Ha. destruct (display_in_range a Ha) as (c & _ & _ & Hs).
  unfold displayable. by rewrite Hs.
Qed.



Example milliunits_to_dollars_scenario_A :
  milliunits_to_dollars 12340 = Ok "$12.34"
  /\ milliunits_to_dollars (-500) = Ok "-$0.50"
  /\ milliunits_to_dollars 1234567890 = Ok "$1,234,567.89"
  /\ milliunits_to_dollars 0 = Ok "$0.00"
  /\ milliunits_to_dollars (-1) = Ok "-$0.00".
Proof. by vm_compute. Qed.

(** Ties go to the hundredth nearest to the float, not to the decimal. *)
Example milliunits_to_dollars_ties :
  milliunits_to_dollars 5 = Ok "$0.01"
  /\ milliunits_to_dollars 15 = Ok "$0.01"
  /\ milliunits_to_dollars 25 = Ok "$0.03".
Proof. by vm_compute. Qed.


Example milliunits_to_dollars_above_range :
  milliunits_to_dollars 17592186044416014 = Ok "$17,592,186,044,416.02"
  /\ milliunits_to_dollars 9007199254740993000
     = Ok "$9,007,199,254,740,992.00"
  /\ is_ok (milliunits_to_dollars (10 ^ 312)) = false.
Proof. by vm_compute. Qed.

Lemma int_of_float_truncates (x : spec_float) :
  int_of_float x
  = match x with
    | S754_nan => Raise (ValueError "cannot convert float NaN to integer")
    | S754_infinity _ =>
        Raise (OverflowError "cannot convert float infinity to integer")
    | _ => Ok (Qtrunc (F2Q x))
    end.
Proof.
  destruct x as [s|s| |s m [|e|e]]; try reflexivity; unfold int_of_float, F2Q, Qtrunc;
    f_equal.
  - simpl Qnum. simpl Qden. by rewrite Z.quot_1_r, Z.mul_1_r.
  - simpl Qnum. simpl Qden. rewrite Z.quot_1_r, Z.shiftl_mul_pow2 by lia.
    destruct s; simpl cond_Zopp; lia.
  - simpl Qnum. simpl Qden. rewrite Z.shiftr_div_pow2, Pos2Z.inj_pow by lia.
    assert (0 < 2 ^ Zpos e) by (apply Z.pow_pos_nonneg; lia).
    destruct s; simpl cond_Zopp.
    + change (Zneg m) with (- Zpos m). rewrite Z.quot_opp_l by lia.
      rewrite Z.quot_div_nonneg by lia. reflexivity.
    + rewrite Z.quot_div_nonneg by lia. reflexivity.
Qed.

(** C1, as the code has it.  For every float [d], [toScaled d] is the
    binary64 product of [d] and [1000.0] (rounded to the nearest float,
    ties to even) truncated toward zero, and it raises when that product
    is infinite or not a number; in particular [toScaled 19.99 = 19990]. *)
Theorem dollars_to_milliunits_truncates_product :
  (forall d : spec_float,
     dollars_to_milliunits d
     = match SFmul prec emax d thousand with
       | S754_nan => Raise (ValueError "cannot convert float NaN to integer")
       | S754_infinity _ =>
           Raise (OverflowError "cannot convert float infinity to integer")
       | product => Ok (Qtrunc (F2Q product))
       end)
  /\ dollars_to_milliunits (float_of_decimal 1999 2) = Ok 19990.
Proof.
  split; [|by vm_compute].
  intros d. unfold dollars_to_milliunits. rewrite int_of_float_truncates.
  by destruct (SFmul prec emax d thousand).
Qed.

(** C1, as stated for every decimal amount, fails: the float nearest to
    [1.001] times [1000.0] is the float just below [1001], so
    [toScaled 1.001 = 1000], while [1.001 * 1000] truncated is [1001]. *)
Lemma scaled_is_not_exact_truncation : ~ scaled_is_exact_truncation.
Proof.
  intros Hexact. specialize (Hexact 1001 3 ltac:(lia)).
  vm_compute in Hexact. discriminate Hexact.
Qed.

(** The products are rounded, then truncated; truncation is toward zero. *)
Example dollars_to_milliunits_examples :
  float_of_decimal 1999 2 = S754_finite false 5626684784446013 (-48)
  /\ Qtrunc (F2Q (float_of_decimal 1999 2) * 1000) = 19989
  /\ dollars_to_milliunits (float_of_decimal 1999 2) = Ok 19990
  /\ dollars_to_milliunits (float_of_decimal 1001 3) = Ok 1000
  /\ dollars_to_milliunits (float_of_decimal (-15) 4) = Ok (-1)
  /\ dollars_to_milliunits (float_of_decimal 125 1) = Ok 12500
  /\ dollars_to_milliunits (float_of_decimal 5 0) = Ok 5000
  /\ is_ok (dollars_to_milliunits (float_of_decimal (10 ^ 306) 0)) = false
  /\ is_ok (dollars_to_milliunits S754_nan) = false.
Proof. by vm_compute. Qed.

(** ** Entity transformer *)

Lemma transform_field_other (res res' : dict) (field k : string) :
  transform_field res field = Ok res' ->
  k <> field -> k <> milliunits_key field -> res' !! k = res !! k.
Proof.
  unfold transform_field. intros Hstep Hk Hkm.
  destruct (res !! field) as [v|] eqn:Hv; [|by inversion Hstep].
  destruct v; try (by inversion Hstep);
    (destruct (milliunits_to_dollars_of _) as [s|e] eqn:Hs;
     [|by inversion Hstep]); simpl in Hstep; inversion Hstep; subst;
    by rewrite !lookup_insert_ne.
Qed.

Lemma transform_loop_other (fields : list string) (res res' : dict) (k : string) :
  transform_loop res fields = Ok res' ->
  Forall (fun g => k <> g /\ k <> milliunits_key g) fields ->
  res' !! k = res !! k.
Proof.
  revert res. induction fields as [|g gs IH]; intros res Hloop Hk; simpl in Hloop.
  - by inversion Hloop.
  - apply Forall_cons in Hk as [[Hg Hgm] Hk].
    destruct (transform_field res g) as [res1|e] eqn:Hstep; [|by inversion Hloop].
    simpl in Hloop. rewrite (IH _ Hloop Hk).
    by apply (transform_field_other _ _ g).
Qed.

Lemma transform_field_int (res : dict) (field : string) (v : Z) (s : string) :
  res !! field = Some (VInt v) -> milliunits_to_dollars v = Ok s ->
  transform_field res field
  = Ok (<[field := VStr s]> (<[milliunits_key field := VInt v]> res)).
Proof.
  intros Hv Hs. unfold transform_field. rewrite Hv. simpl. by rewrite Hs.
Qed.

Lemma transform_loop_spec (fields : list string) :
  NoDup fields -> keys_separated fields ->
  forall res : dict,
    Forall (amount_field_ok res) fields ->
    exists res', transform_loop res fields = Ok res'
      /\ Forall (amount_field_transformed res res') fields.
Proof.
  unfold keys_separated.
  induction fields as [|g gs IH]; intros Hnd Hsep res Hok.
  - exists res. by split.
  - apply NoDup_cons in Hnd as [Hg Hnd].
    apply Forall_cons in Hok as [Hokg Hok].
    apply Forall_cons in Hsep as [Hsepg Hsep].
    apply Forall_cons in Hsepg as [_ Hsepg].
    assert (Hsep' : Forall (fun f => Forall (fun h => f <> milliunits_key h) gs) gs).
    { eapply Forall_impl; [exact Hsep|]. intros f Hf. simpl in Hf.
      by apply Forall_cons in Hf as [_ Hf]. }
    assert (Hgs : Forall (fun f => f <> g /\ f <> milliunits_key g
                                   /\ g <> milliunits_key f) gs).
    { apply Forall_forall. intros f Hf. repeat split.
      - intros ->. done.
      - rewrite Forall_forall in Hsep. specialize (Hsep f Hf).
        by apply Forall_cons in Hsep as [? _].
      - rewrite Forall_forall in Hsepg. by apply Hsepg. }
    assert (Hstep : exists res1, transform_field res g = Ok res1
              /\ amount_field_transformed res res1 g
              /\ forall k, k <> g -> k <> milliunits_key g -> res1 !! k = res !! k).
    { destruct Hokg as [Hn | [Hn | (v & Hv & Hd)]].
      - exists res. unfold transform_field, amount_field_transformed.
        rewrite Hn. repeat split; done.
      - exists res. unfold transform_field, amount_field_transformed.
        rewrite Hn. repeat split; done.
      - destruct (displayable_ok v Hd) as [s Hs].
        eexists. split; [by apply transform_field_int|].
        split; [split|].
        + intros v' Hv'. rewrite Hv in Hv'. injection Hv' as <-.
          split.
          * rewrite lookup_insert_ne, lookup_insert_eq; [done|].
            unfold milliunits_key. intros Heq.
            apply (f_equal String.length) in Heq.
            rewrite length_app in Heq. simpl in Heq. lia.
          * exists s. split; [done|]. by rewrite lookup_insert_eq.
        + intros [Hn | Hn]; rewrite Hv in Hn; done.
        + intros k Hk Hkm. by rewrite !lookup_insert_ne. }
    destruct Hstep as (res1 & Hstep & Hpost & Hframe).
    destruct (IH Hnd Hsep' res1) as (res' & Hloop & Hposts).
    { apply Forall_forall. intros f Hf.
      rewrite Forall_forall in Hok, Hgs. specialize (Hok f Hf).
      destruct (Hgs f Hf) as (Hfg & Hfgm & _).
      unfold amount_field_ok. by rewrite Hframe. }
    exists res'. split; [simpl; by rewrite Hstep|].
    apply Forall_cons. split.
    + assert (Hkeep : forall k, (k = g \/ k = milliunits_key g) ->
                res' !! k = res1 !! k).
      { intros k Hk. apply (transform_loop_other gs); [done|].
        apply Forall_forall. intros h Hh. rewrite Forall_forall in Hgs.
        destruct (Hgs h Hh) as (Hhg & Hhgm & Hghm).
        destruct Hk as [-> | ->]; split; try congruence.
        intros Heq. apply milliunits_key_inj in Heq. congruence. }
      destruct Hpost as [Hint Hnone]. split.
      * intros v Hv. destruct (Hint v Hv) as (Hm & s & Hs & Hf).
        rewrite !Hkeep by auto. eauto.
      * intros Hn. rewrite !Hkeep by auto. auto.
    + apply Forall_forall. intros f Hf.
      rewrite Forall_forall in Hposts, Hgs.
      destruct (Hgs f Hf) as (Hfg & Hfgm & Hgfm).
      destruct (Hposts f Hf) as [Hint Hnone].
      assert (Hf1 : res1 !! f = res !! f) by by apply Hframe.
      assert (Hfm1 : res1 !! milliunits_key f = res !! milliunits_key f).
      { apply Hframe; [congruence|].
        intros Heq. apply milliunits_key_inj in Heq. congruence. }
      split.
      * intros v Hv. apply Hint. by rewrite Hf1.
      * intros Hn. rewrite <- Hf1, <- Hfm1. apply Hnone. by rewrite Hf1.
Qed.

Lemma bind_Ok {A B} (a : A) (k : A -> result B) : (Ok a ≫= k) = k a.
Proof. reflexivity. Qed.

Lemma transform_categories_ok (cs : list value) :
  Forall (fun c => exists d, c = VDict d
            /\ Forall (amount_field_ok d) category_fields) cs ->
  exists cs', mapM transform_category_of cs = Ok cs'.
Proof.
  induction 1 as [|c cs (d & -> & Hd) _ (cs' & IH)]; simpl.
  - by eexists.
  - destruct (transform_loop_spec category_fields) with (res := d)
      as (d' & Hd' & _); [| |done|].
    + apply (bool_decide_unpack _). by vm_compute.
    + apply (bool_decide_unpack _). by vm_compute.
    + unfold transform_category, transform_amount_fields. rewrite Hd'.
      simpl. rewrite IH. by eexists.
Qed.



Example transform_account_example :
  transform Account example_account
  = Ok (<["balance" := VStr "$12.34"]>
          (<["balance_milliunits" := VInt 12340]> example_account)).
Proof. reflexivity. Qed.

(** ** Input validation *)

Section Validation.
Context `{Library}.

Ltac validator_cases self :=
  unfold exactly_one, call_tool, model_validate,
    CreateTransactionInput.exactly_one_amount,
    CreateScheduledTransactionInput.exactly_one_amount,
    UpdateCategoryBudgetInput.exactly_one_amount;
  destruct self as [];
  repeat match goal with
         | o : option _ |- _ => destruct o
         end;
  simpl; rewrite ?is_Some_alt; repeat split; intros; try done;
  intuition (try done; try discriminate).

(** C4. For the three single-amount inputs (create transaction, create
    scheduled transaction, update category month budget) the construction
    of the input succeeds if and only if exactly one of
    [amount_milliunits] and [amount_dollars] is present.  With both
    present or both absent the call fails with a [ValidationError] and the
    world is as it was: the tool function is not entered and no call is
    made to the upstream service. *)
Theorem exactly_one_amount_validation :
  (forall self : CreateTransactionInput.t,
     let A := is_Some (CreateTransactionInput.amount_milliunits self) in
     let B := is_Some (CreateTransactionInput.amount_dollars self) in
     (model_validate CreateTransactionInput.exactly_one_amount self = Ok self
      <-> exactly_one A B)
     /\ ((A /\ B) \/ (~ A /\ ~ B) ->
         forall w,
           call_tool CreateTransactionInput.exactly_one_amount
             ynab_create_transaction self w
           = (Raise (ValidationError exactly_one_message), w)))
  /\ (forall self : CreateScheduledTransactionInput.t,
        let A := is_Some (CreateScheduledTransactionInput.amount_milliunits self) in
        let B := is_Some (CreateScheduledTransactionInput.amount_dollars self) in
        (model_validate CreateScheduledTransactionInput.exactly_one_amount self
         = Ok self <-> exactly_one A B)
        /\ ((A /\ B) \/ (~ A /\ ~ B) ->
            forall w,
              call_tool CreateScheduledTransactionInput.exactly_one_amount
                ynab_create_scheduled_transaction self w
              = (Raise (ValidationError exactly_one_message), w)))
  /\ (forall self : UpdateCategoryBudgetInput.t,
        let A := is_Some (UpdateCategoryBudgetInput.amount_milliunits self) in
        let B := is_Some (UpdateCategoryBudgetInput.amount_dollars self) in
        (model_validate UpdateCategoryBudgetInput.exactly_one_amount self
         = Ok self <-> exactly_one A B)
        /\ ((A /\ B) \/ (~ A /\ ~ B) ->
            forall w,
              call_tool UpdateCategoryBudgetInput.exactly_one_amount
                ynab_update_category_budget self w
              = (Raise (ValidationError exactly_one_message), w))).
Proof.
  split; [|split]; intros self; validator_cases self.
Qed.

End Validation.

Lemma exactly_one_amount_validation_witness :
  call_tool CreateTransactionInput.exactly_one_amount
    (@ynab_create_transaction sample_library) both_amounts
    (sample_world sample_items)
  = (Raise (ValidationError exactly_one_message), sample_world sample_items).
Proof.
  destruct (@exactly_one_amount_validation sample_library) as [Hcreate _].
  destruct (Hcreate both_amounts) as [_ Hfail].
  apply Hfail. left. split; eexists; reflexivity.
Defined.

Example validator_scenarios :
  let input m d :=
    {| UpdateCategoryBudgetInput.budget_id := "last-used";
       UpdateCategoryBudgetInput.category_id := "c1";
       UpdateCategoryBudgetInput.month := "2024-01-01";
       UpdateCategoryBudgetInput.amount_milliunits := m;
       UpdateCategoryBudgetInput.amount_dollars := d |} in
  let five := S754_finite false 5629499534213120 (-50) in
  let valid m d :=
    is_ok (model_validate UpdateCategoryBudgetInput.exactly_one_amount
             (input m d)) in
  valid (Some 5000) (Some five) = false
  /\ valid None None = false
  /\ valid (Some 5000) None = true
  /\ valid None (Some five) = true
  /\ dollars_to_milliunits five = Ok 5000.
Proof. by vm_compute. Qed.

(** ** Error classifier *)

(** C7. The classifier is a total function to text.  Upstream status 401
    gives the invalid-credential message, 403 the insufficient-permission
    message, 404 the not-found message, 429 the rate-limit message; any
    other upstream status gives a generic message in which the status and
    the reason occur; every other failure gives a generic message in which
    the name of the failure kind and its description occur. *)
Theorem handle_api_error_classifies :
  (forall reason,
     handle_api_error (ApiException (Some 401) reason)
     = "Error: Invalid API key. Check YNAB_API_KEY environment variable.")
  /\ (forall reason,
        handle_api_error (ApiException (Some 403) reason)
        = "Error: Access forbidden. You don't have permission for this resource.")
  /\ (forall reason,
        handle_api_error (ApiException (Some 404) reason)
        = "Error: Resource not found. Check the ID is correct.")
  /\ (forall reason,
        handle_api_error (ApiException (Some 429) reason)
        = "Error: Rate limit exceeded. Wait before making more requests.")
  /\ (forall status reason,
        status <> Some 401 -> status <> Some 403 ->
        status <> Some 404 -> status <> Some 429 ->
        handle_api_error (ApiException status reason)
        = "Error: YNAB API error " +:+ fmt_opt_int status +:+ ": "
            +:+ fmt_opt_str reason
        /\ occurs_in (fmt_opt_int status)
             (handle_api_error (ApiException status reason))
        /\ occurs_in (fmt_opt_str reason)
             (handle_api_error (ApiException status reason)))
  /\ (forall type_name msg,
        handle_api_error (Exception type_name msg)
        = "Error: " +:+ type_name +:+ ": " +:+ msg
        /\ occurs_in type_name (handle_api_error (Exception type_name msg))
        /\ occurs_in msg (handle_api_error (Exception type_name msg))).
Proof.
  repeat split; try reflexivity.
  - unfold handle_api_error. by rewrite !bool_decide_eq_false_2.
  - unfold handle_api_error. rewrite !bool_decide_eq_false_2 by done.
    apply (occurs_in_middle "Error: YNAB API error ").
  - unfold handle_api_error. rewrite !bool_decide_eq_false_2 by done.
    apply (occurs_in_end ("Error: YNAB API error " +:+ fmt_opt_int status)).
  - apply (occurs_in_middle "Error: ").
  - apply (occurs_in_end ("Error: " +:+ type_name)).
Qed.

Lemma handle_api_error_classifies_witness :
  handle_api_error (ApiException (Some 500) (Some "Internal Server Error"))
  = "Error: YNAB API error 500: Internal Server Error".
Proof.
  destruct handle_api_error_classifies as (_ & _ & _ & _ & H & _).
  by destruct (H (Some 500) (Some "Internal Server Error")) as [-> _].
Defined.

(** ** Search *)



Example search_scenario_E :
  matches_query (lower "coffee") coffee_payee = true
  /\ matches_query (lower "coffee") coffee_memo = true
  /\ matches_query (lower "COFFEE") coffee_memo = true
  /\ matches_query (lower "coffee") groceries = false
  /\ List.filter (matches_query (lower "coffee"))
       [coffee_payee; groceries; coffee_memo]
     = [coffee_payee; coffee_memo].
Proof. by vm_compute. Qed.

(** ** Tools *)

Lemma transform_transaction_to_dict (t : TransactionDetail) :
  displayable (amount t) ->
  exists s, milliunits_to_dollars (amount t) = Ok s
    /\ transform_transaction (to_dict t)
       = Ok (<["amount" := VStr s]>
               (<["amount_milliunits" := VInt (amount t)]> (to_dict t))).
Proof.
  intros Hd. destruct (displayable_ok _ Hd) as [s Hs]. exists s.
  split; [done|].
  unfold transform_transaction, transform_amount_fields, transaction_fields.
  cbn [transform_loop].
  rewrite (transform_field_int _ "amount" (amount t) s); [done| |done].
  unfold to_dict. by rewrite lookup_insert_eq.
Qed.

Lemma sum_amounts_shift (ds : list dict) (acc x : Z) :
  sum_amounts ds acc = Ok x -> forall k, sum_amounts ds (k + acc) = Ok (k + x).
Proof.
  revert acc x. induction ds as [|d ds IH]; intros acc x Hsum k; simpl in *.
  - by inversion Hsum.
  - destruct (int_of_value _) as [y|e]; [|by inversion Hsum].
    simpl in *. rewrite <- Z.add_assoc. by apply IH.
Qed.

Lemma transform_all_total (items : list TransactionDetail) :
  Forall (fun t => displayable (amount t)) items ->
  exists transactions,
    transform_all items = Ok transactions
    /\ length transactions = length items
    /\ sum_amounts transactions 0 = Ok (total_amount items).
Proof.
  unfold transform_all.
  induction 1 as [|t items Ht _ (ds & Hds & Hlen & Hsum)]; simpl.
  - by exists [].
  - destruct (transform_transaction_to_dict t Ht) as (s & Hs & Htr).
    rewrite Htr. simpl. rewrite Hds. simpl. eexists. split; [done|].
    split; [simpl; by rewrite Hlen|].
    simpl. rewrite lookup_insert_ne by done. rewrite lookup_insert_eq.
    simpl.
    replace (0 + amount t) with (amount t + 0) by lia.
    by apply sum_amounts_shift.
Qed.

Section Tools.
Context `{Library}.

Ltac run_tool :=
  unfold try_except, mbind, M_bind, mret, M_ret, get_api_client, api, lift,
    write_to_file.

(** C10. A listing call and a search call with [summary_only = true]
    leave the files as they were, whatever [output_to_file], [output_path],
    the answer of the upstream service and the size of the result are. *)
Theorem summary_only_writes_no_file
  (pg : GetTransactionsInput.t) (ps : SearchTransactionsInput.t) (w : world) :
  GetTransactionsInput.summary_only pg = true ->
  SearchTransactionsInput.summary_only ps = true ->
  files (snd (ynab_get_transactions pg w)) = files w
  /\ files (snd (ynab_search_transactions ps w)) = files w.
Proof.
  intros Hg Hs. split.
  - unfold ynab_get_transactions. rewrite Hg. run_tool.
    repeat case_match; simplify_eq/=; done.
  - unfold ynab_search_transactions. rewrite Hs. run_tool.
    repeat case_match; simplify_eq/=; done.
Qed.

(** The search fetches the full listing, and nothing else. *)
Lemma search_fetches_full_listing (p : SearchTransactionsInput.t) (w : world) :
  truthy (YNAB_API_KEY w) = true ->
  calls (snd (ynab_search_transactions p w))
  = (calls w ++ [GetTransactions (SearchTransactionsInput.budget_id p)
                   (SearchTransactionsInput.since_date p)])%list.
Proof.
  intros Hkey. unfold ynab_search_transactions. run_tool. rewrite Hkey.
  repeat case_match; simplify_eq/=; done.
Qed.

(** The listing, up to the point where the flags are read. *)
Lemma listing_prefix (p : GetTransactionsInput.t) (w : world)
  (items : list TransactionDetail) :
  truthy (YNAB_API_KEY w) = true ->
  upstream w (listing_call p) = Ok (Transactions items) ->
  Forall (fun t => displayable (amount t)) items ->
  displayable (total_amount items) ->
  exists transactions total,
    transform_all items = Ok transactions
    /\ length transactions = length items
    /\ milliunits_to_dollars (total_amount items) = Ok total
    /\ ynab_get_transactions p w
       = try_except
           (if GetTransactionsInput.summary_only p then
              mret (json_dumps
                      (VDict (totals (length transactions)
                                (total_amount items) total)))
            else
              let count := length transactions in
              let summary :=
                listing_document transactions (total_amount items) total in
              if GetTransactionsInput.output_to_file p then
                filepath ← write_to_file summary "transactions"
                             (GetTransactionsInput.output_path p);
                mret (json_dumps
                        (VDict (<["output_file" := VStr filepath]>
                                  (<["message" :=
                                       VStr ("Wrote "
                                               +:+ str_of_int (Z.of_nat count)
                                               +:+ " transactions to "
                                               +:+ filepath)]>
                                     (totals count (total_amount items) total)))))
              else
                let result := json_dumps summary in
                if (Z.of_nat (String.length result) >? CHARACTER_LIMIT)%Z then
                  filepath ← write_to_file summary "transactions"
                               (GetTransactionsInput.output_path p);
                  mret (json_dumps
                          (VDict (<["output_file" := VStr filepath]>
                                    (<["message" :=
                                         VStr ("Response too large ("
                                                 +:+ str_of_int
                                                       (Z.of_nat
                                                          (String.length result))
                                                 +:+ " chars). Wrote to "
                                                 +:+ filepath)]>
                                       (totals count (total_amount items)
                                          total)))))
                else mret result)
           handle_api_error
           (log_call w (listing_call p)).
Proof.
  intros Hkey Hup Hitems Htotal.
  destruct (transform_all_total items Hitems) as (ds & Hds & Hlen & Hsum).
  destruct (displayable_ok _ Htotal) as [total Htot].
  exists ds, total. repeat split; try done.
  unfold ynab_get_transactions. run_tool. rewrite Hkey, Hup. simpl.
  rewrite Hds, Hsum, Htot. by destruct (GetTransactionsInput.summary_only p).
Qed.

(** C6. A listing call with [summary_only = true] that the upstream
    service answers with [items] returns the serialization of the mapping
    with exactly the keys [count], [total_milliunits] and [total] (so no
    [transactions] key), whatever [output_to_file] is: [count] is the
    number of items, [total_milliunits] the sum of their integer amounts,
    and [total] the display string of that sum. *)
Theorem summary_only_result (p : GetTransactionsInput.t) (w : world)
  (items : list TransactionDetail) :
  GetTransactionsInput.summary_only p = true ->
  truthy (YNAB_API_KEY w) = true ->
  upstream w (listing_call p) = Ok (Transactions items) ->
  Forall (fun t => displayable (amount t)) items ->
  displayable (total_amount items) ->
  exists total,
    milliunits_to_dollars (total_amount items) = Ok total
    /\ let d := totals (length items) (total_amount items) total in
       fst (ynab_get_transactions p w) = json_dumps (VDict d)
       /\ dom d = {[ "count"; "total_milliunits"; "total" ]}
       /\ d !! "transactions" = None
       /\ d !! "count" = Some (VInt (Z.of_nat (length items)))
       /\ d !! "total_milliunits" = Some (VInt (total_amount items))
       /\ d !! "total" = Some (VStr total).
Proof.
  intros Hso Hkey Hup Hitems Htotal.
  destruct (listing_prefix p w items Hkey Hup Hitems Htotal)
    as (ds & total & Hds & Hlen & Htot & ->).
  exists total. split; [done|]. rewrite Hso, Hlen. cbn zeta.
  split; [done|]. split.
  { unfold totals. rewrite !dom_insert_L, dom_empty_L. set_solver. }
  unfold totals. by simplify_map_eq.
Qed.



End Tools.

Lemma summary_only_writes_no_file_witness :
  files (snd (@ynab_get_transactions sample_library (listing_params true true)
                (sample_world sample_items)))
  = files (sample_world sample_items)
  /\ files (snd (@ynab_search_transactions sample_library
                   (search_params true true) (sample_world sample_items)))
     = files (sample_world sample_items).
Proof.
  apply (@summary_only_writes_no_file sample_library); reflexivity.
Defined.

Lemma summary_only_result_witness :
  exists total,
    milliunits_to_dollars (total_amount sample_items) = Ok total
    /\ let d := totals (length sample_items) (total_amount sample_items) total in
       fst (@ynab_get_transactions sample_library (listing_params true true)
              (sample_world sample_items))
       = @json_dumps sample_library (VDict d)
       /\ dom d = {[ "count"; "total_milliunits"; "total" ]}
       /\ d !! "transactions" = None
       /\ d !! "count" = Some (VInt (Z.of_nat (length sample_items)))
       /\ d !! "total_milliunits" = Some (VInt (total_amount sample_items))
       /\ d !! "total" = Some (VStr total).
Proof.
  apply (@summary_only_result sample_library);
    [reflexivity | reflexivity | reflexivity
    | repeat constructor; vm_compute; reflexivity
    | vm_compute; reflexivity].
Defined.

Example summary_only_totals :
  milliunits_to_dollars (total_amount sample_items) = Ok "-$74.73"
  /\ total_amount sample_items = -74730.
Proof. by vm_compute. Qed.


(** Twenty-six transactions make a document of 26000 characters under the
    sample serializer: the call writes it to the generated path. *)
Example oversized_listing_example :
  let w := sample_world (replicate 26 groceries) in
  let path := "/tmp/ynab-mcp/transactions_20240131_120000.json" in
  let '(returned, w') :=
    @ynab_get_transactions sample_library (listing_params false false) w in
  (Z.of_nat <$> (String.length <$> files w' !! path)) = Some 26000
  /\ returned = "{}".
Proof. vm_compute. split; reflexivity. Qed.

Example small_listing_example :
  let w := sample_world sample_items in
  let '(returned, w') :=
    @ynab_get_transactions sample_library (listing_params false false) w in
  files w' = ∅ /\ Z.of_nat (String.length returned) = 3000.
Proof. vm_compute. repeat split; reflexivity. Qed.


Example spill_failure_text :
  fst (@ynab_get_transactions sample_library (listing_params true false)
         (read_only_world sample_items))
  = "Error: PermissionError: [Errno 13] Permission denied".
Proof. by vm_compute. Qed.


(** * Further properties *)

(** ** MonetaryAmount codec *)

Lemma binary_round_aux_opp (sx : bool) (m e : Z) (l : location) :
  binary_round_aux prec emax (negb sx) m e l
  = SFopp (binary_round_aux prec emax sx m e l).
Proof.
  unfold binary_round_aux.
  destruct (shr_fexp prec emax m e l) as [mrs1 e1].
  destruct (shr_fexp prec emax _ e1 loc_Exact) as [mrs2 e2].
  destruct (shr_m mrs2); [|destruct (e2 <=? emax - prec)%Z|]; reflexivity.
Qed.

Lemma SFmul_thousand_opp (d : spec_float) :
  SFmul prec emax (SFopp d) thousand = SFopp (SFmul prec emax d thousand).
Proof.
  destruct d as [s|s| |s m e]; try reflexivity; unfold thousand; simpl SFopp at 1.
  - simpl. by destruct s.
  - simpl. by destruct s.
  - unfold SFmul. rewrite !xorb_false_r. apply binary_round_aux_opp.
Qed.

Lemma int_of_float_opp (x : spec_float) :
  int_of_float (SFopp x)
  = match int_of_float x with Ok n => Ok (- n) | Raise e => Raise e end.
Proof.
  destruct x as [s|s| |s m [|e|e]]; try reflexivity; simpl; f_equal;
    destruct s; simpl; lia.
Qed.

(** X1. [dollars_to_milliunits] is odd: negating the float negates the
    result, and an amount that cannot be converted cannot be converted
    after negation either, with the same failure.  (Truncation is toward
    zero, not toward minus infinity.) *)
Theorem dollars_to_milliunits_opp (d : spec_float) :
  dollars_to_milliunits (SFopp d)
  = match dollars_to_milliunits d with
    | Ok n => Ok (- n)
    | Raise e => Raise e
    end.
Proof.
  unfold dollars_to_milliunits. by rewrite SFmul_thousand_opp, int_of_float_opp.
Qed.

Example dollars_to_milliunits_opp_example :
  dollars_to_milliunits (float_of_decimal 15 4) = Ok 1
  /\ dollars_to_milliunits (float_of_decimal (-15) 4) = Ok (-1)
  /\ float_of_decimal (-15) 4 = SFopp (float_of_decimal 15 4).
Proof. by vm_compute. Qed.

Lemma SFdiv_1000_opp (p : positive) :
  SFdiv prec emax (S754_finite true p 0) (S754_finite false 1000 0)
  = SFopp (SFdiv prec emax (S754_finite false p 0) (S754_finite false 1000 0)).
Proof.
  unfold SFdiv.
  destruct (SFdiv_core_binary prec emax (Zpos p) 0 1000 0) as [[mz ez] lz].
  apply (binary_round_aux_opp false).
Qed.

(** X2. The display of a negative amount is the display of its absolute
    value with a minus sign in front; if the absolute value cannot be
    displayed, neither can the negative amount, with the same failure. *)
Theorem milliunits_to_dollars_opp (a : Z) :
  0 < a ->
  milliunits_to_dollars (- a)
  = match milliunits_to_dollars a with
    | Ok s => Ok ("-" +:+ s)
    | Raise e => Raise e
    end.
Proof.
  intros Ha. destruct a as [|p|p]; try lia. simpl Z.opp.
  unfold milliunits_to_dollars, int_truediv. simpl float_of_int.
  change (1000 =? 0)%Z with false. cbv iota. rewrite SFdiv_1000_opp.
  destruct (SFdiv_1000_shape false p) as (m & e2 & _ & ->).
  by destruct (e2 <=? 971)%Z.
Qed.

Lemma milliunits_to_dollars_opp_witness :
  milliunits_to_dollars (- 12340)
  = match milliunits_to_dollars 12340 with
    | Ok s => Ok ("-" +:+ s)
    | Raise e => Raise e
    end.
Proof. apply (milliunits_to_dollars_opp 12340). reflexivity. Defined.



(** ** Entity transformer *)

Lemma transform_field_dom (res res' : dict) (field : string) :
  transform_field res field = Ok res' -> dom res ⊆ dom res'.
Proof.
  unfold transform_field. intros Hstep.
  destruct (res !! field) as [v|] eqn:Hv; [|by inversion Hstep].
  destruct v; try (by inversion Hstep);
    (destruct (milliunits_to_dollars_of _) as [s|e] eqn:Hs;
     [|by inversion Hstep]); simpl in Hstep; inversion Hstep; subst;
    rewrite !dom_insert; set_solver.
Qed.

Lemma transform_loop_dom (fields : list string) (res res' : dict) :
  transform_loop res fields = Ok res' -> dom res ⊆ dom res'.
Proof.
  revert res. induction fields as [|g gs IH]; intros res Hloop; simpl in Hloop.
  - by inversion Hloop.
  - destruct (transform_field res g) as [res1|e] eqn:Hstep; [|by inversion Hloop].
    simpl in Hloop. etrans; [by eapply transform_field_dom | by apply IH].
Qed.

Lemma transform_loop_of (k : entity_kind) (obj obj' : dict) :
  transform k obj = Ok obj' ->
  exists res, transform_loop obj (monetary_fields k) = Ok res
    /\ (obj' = res
        \/ k = MonthBudget
           /\ exists cs', obj' = <["categories" := VList cs']> res
                /\ is_Some (res !! "categories")).
Proof.
  destruct k; cbn [transform monetary_fields];
    unfold transform_account, transform_category,
    transform_transaction, transform_month, transform_amount_fields;
    try (intros Hres; exists obj'; by split; [|left]).
  destruct (transform_loop obj month_fields) as [res|e];
    [|intros Hres; by inversion Hres].
  rewrite bind_Ok. intros Hres. exists res. split; [done|].
  destruct (res !! "categories") as [[| | | |cs| |]|] eqn:Hcs;
    try (by inversion Hres).
  - destruct (mapM transform_category_of cs) as [cs'|e]; [|by inversion Hres].
    rewrite bind_Ok in Hres. inversion Hres. right. split; [done|].
    exists cs'. by split.
  - inversion Hres. by left.
Qed.

(** X4. The transformer touches nothing but the monetary fields, their
    [_milliunits] keys and (for a month) the [categories] key: every other
    key of the result is bound as in the input, and no key of the input is
    lost. *)
Theorem transform_keeps_other_keys (k : entity_kind) (obj obj' : dict) :
  transform k obj = Ok obj' ->
  (forall key : string,
     Forall (fun f => key <> f /\ key <> milliunits_key f) (monetary_fields k) ->
     (k = MonthBudget -> key <> "categories") ->
     obj' !! key = obj !! key)
  /\ dom obj ⊆ dom obj'.
Proof.
  intros Htr. destruct (transform_loop_of k obj obj' Htr)
    as (res & Hloop & [->|(-> & cs' & -> & Hcat)]).
  - split; [|by eapply transform_loop_dom].
    intros key Hkey _. by apply (transform_loop_other (monetary_fields k)).
  - split.
    + intros key Hkey Hc. rewrite lookup_insert_ne by (intros <-; by apply Hc).
      by apply (transform_loop_other (monetary_fields MonthBudget)).
    + rewrite dom_insert. apply transform_loop_dom in Hloop. set_solver.
Qed.

Lemma transform_keeps_other_keys_witness :
  (forall key : string,
     Forall (fun f => key <> f /\ key <> milliunits_key f)
       (monetary_fields Account) ->
     (Account = MonthBudget -> key <> "categories") ->
     (<["balance" := VStr "$12.34"]>
        (<["balance_milliunits" := VInt 12340]> example_account)) !! key
     = example_account !! key)
  /\ dom example_account
     ⊆ dom (<["balance" := VStr "$12.34"]>
              (<["balance_milliunits" := VInt 12340]> example_account)).
Proof. apply (transform_keeps_other_keys Account). reflexivity. Defined.

(** X5. An entity none of whose monetary fields holds a value (each is
    absent or null) is returned as it is, for every list of fields: no
    key is invented. *)
Theorem transform_amount_fields_no_amounts (fields : list string) (obj : dict) :
  Forall (fun f => obj !! f = None \/ obj !! f = Some VNone) fields ->
  transform_amount_fields obj fields = Ok obj.
Proof.
  unfold transform_amount_fields.
  induction 1 as [|f fs Hf _ IH]; [done|]. simpl.
  unfold transform_field at 1. by destruct Hf as [-> | ->].
Qed.

Lemma transform_amount_fields_no_amounts_witness :
  transform_amount_fields (<["goal_target" := VNone]> ∅) category_fields
  = Ok (<["goal_target" := VNone]> ∅).
Proof.
  apply transform_amount_fields_no_amounts.
  repeat (apply Forall_cons_2; [vm_compute; auto|]). apply Forall_nil_2.
Defined.

Lemma transform_loop_raises (fields : list string) (res : dict) :
  Forall (fun f => res !! f = None \/ res !! f = Some VNone
                   \/ exists s, res !! f = Some (VStr s)) fields ->
  Exists (fun f => exists s, res !! f = Some (VStr s)) fields ->
  transform_loop res fields
  = Raise (TypeError "unsupported operand type(s) for /").
Proof.
  induction 1 as [|f fs Hf Hfs IH]; intros Hex; [by inversion Hex|].
  simpl. unfold transform_field at 1.
  destruct Hf as [Hf | [Hf | [s Hf]]]; rewrite Hf; [| |done].
  - rewrite bind_Ok. apply IH. inversion Hex as [? ? [s Hs]|]; [congruence|done].
  - rewrite bind_Ok. apply IH. inversion Hex as [? ? [s Hs]|]; [congruence|done].
Qed.

(** X6. The transformer is not idempotent: after a first transformation
    that met an integer amount, the monetary field holds a display
    string, and transforming the result again raises [TypeError]. *)
Theorem transform_twice_raises (k : entity_kind) (obj : dict) :
  entity_ok k obj ->
  Exists (fun f => exists v, obj !! f = Some (VInt v)) (monetary_fields k) ->
  exists obj', transform k obj = Ok obj'
    /\ transform k obj' = Raise (TypeError "unsupported operand type(s) for /").
Proof.
  intros [Hfields Hcats] Hint.
  destruct (transform_loop_spec (monetary_fields k)) with (res := obj)
    as (res & Hloop & Hpost); [| |done|].
  { destruct k; apply (bool_decide_unpack _); by vm_compute. }
  { destruct k; apply (bool_decide_unpack _); by vm_compute. }
  assert (Hres : Forall (fun f => res !! f = None \/ res !! f = Some VNone
                           \/ exists s, res !! f = Some (VStr s))
                   (monetary_fields k)
                 /\ Exists (fun f => exists s, res !! f = Some (VStr s))
                      (monetary_fields k)).
  { rewrite Forall_forall in Hfields, Hpost. split.
    - apply Forall_forall. intros f Hf.
      destruct (Hpost f Hf) as [Hi Hn].
      destruct (Hfields f Hf) as [H0 | [H0 | (v & Hv & _)]].
      + left. destruct Hn as [-> _]; auto.
      + right; left. destruct Hn as [-> _]; auto.
      + right; right. destruct (Hi v Hv) as (_ & s & _ & Hs). eauto.
    - apply Exists_exists in Hint as (f & Hf & v & Hv).
      apply Exists_exists. exists f. split; [done|].
      destruct (Hpost f Hf) as [Hi _].
      destruct (Hi v Hv) as (_ & s & _ & Hs). eauto. }
  destruct Hres as [Hall Hex].
  destruct k;
    try (exists res; split; [exact Hloop|];
         by apply (transform_loop_raises _ res)).
  (* a month: the categories are replaced after the loop *)
  assert (Hc : res !! "categories" = obj !! "categories").
  { apply (transform_loop_other month_fields); [done|].
    repeat (apply Forall_cons_2;
            [split; intros Heq; by vm_compute in Heq|]).
    constructor. }
  assert (Hmonth : exists obj', transform_month obj = Ok obj'
            /\ forall f, f ∈ month_fields -> obj' !! f = res !! f).
  { unfold transform_month, transform_amount_fields.
    change (transform_loop obj month_fields = Ok res) in Hloop.
    rewrite Hloop, bind_Ok, Hc. unfold categories_ok in Hcats.
    destruct (obj !! "categories") as [[| | | |cs| |]|] eqn:Hcs; try done.
    - destruct (transform_categories_ok cs Hcats) as [cs' Hcs'].
      rewrite Hcs', bind_Ok. eexists. split; [done|].
      intros f Hf. apply lookup_insert_ne. intros <-. revert Hf.
      apply (bool_decide_unpack _). by vm_compute.
    - by exists res. }
  destruct Hmonth as (obj' & Hobj' & Hsame). exists obj'. split; [done|].
  unfold transform, transform_month, transform_amount_fields.
  rewrite (transform_loop_raises month_fields obj'); [done| |].
  - eapply Forall_impl; [apply Forall_and; split;
      [exact Hall | apply Forall_forall; intros f Hf; exact (Hsame f Hf)]|].
    intros f [Hf ->]. exact Hf.
  - apply Exists_exists in Hex as (f & Hf & s & Hs).
    apply Exists_exists. exists f. split; [done|]. exists s.
    by rewrite Hsame.
Qed.

Lemma transform_twice_raises_witness :
  exists obj', transform Account example_account = Ok obj'
    /\ transform Account obj'
       = Raise (TypeError "unsupported operand type(s) for /").
Proof.
  apply transform_twice_raises.
  - split; [|exact I].
    repeat apply Forall_cons_2; [| | |constructor].
    + right. right. exists 12340. split; [reflexivity | by vm_compute].
    + right. left. reflexivity.
    + left. reflexivity.
  - apply Exists_cons_hd. exists 12340. reflexivity.
Defined.




(** ** Error classifier *)

(** X8. Every text the classifier returns starts with ["Error: "], so a
    caller can tell a failure from a result by the prefix. *)
Theorem handle_api_error_prefix (e : exn) :
  String.prefix "Error: " (handle_api_error e) = true.
Proof.
  apply prefix_spec. destruct e as [status reason|type_name msg]; simpl.
  - repeat case_bool_decide; by eexists.
  - by eexists.
Qed.

(** ** Result spiller and listing *)

Section MoreTools.
Context `{Library}.

Ltac run_tool' :=
  unfold try_except, mbind, M_bind, mret, M_ret, get_api_client, api, lift,
    write_to_file.

(** X9. Two spills to the same path (the same prefix within the same
    second without an explicit path, or the same explicit path) collide:
    the second replaces the first, and the files are as if only the second
    had been written. *)
Theorem write_to_file_last_wins (d1 d2 : value) (prefix : string)
  (output_path : option string) (w : world) :
  fs_error w (spill_path w prefix output_path) = None ->
  let path := spill_path w prefix output_path in
  let w1 := snd (write_to_file d1 prefix output_path w) in
  let '(r2, w2) := write_to_file d2 prefix output_path w1 in
  r2 = Ok path
  /\ files w2 = <[path := json_dumps d2]> (files w)
  /\ files w2 = files (snd (write_to_file d2 prefix output_path w)).
Proof.
  intros Hfs. unfold write_to_file. rewrite Hfs. cbn [snd].
  change (spill_path (set_files w _)) with (spill_path w).
  change (fs_error (set_files w ?x)) with (fs_error w). rewrite Hfs.
  cbn [files set_files snd]. by rewrite insert_insert_eq.
Qed.


(** X11. Without an API key no tool reaches the upstream service or the
    file system: the listing and the search return the text of the
    [ValueError] and leave the world as it was; so do the three writing
    tools once their amount is determined. *)
Theorem tools_without_key (w : world) :
  truthy (YNAB_API_KEY w) = false ->
  let refused :=
    ("Error: ValueError: YNAB_API_KEY environment variable is required", w) in
  (forall p, ynab_get_transactions p w = refused)
  /\ (forall p, ynab_search_transactions p w = refused)
  /\ (forall p,
        is_ok (amount_of (UpdateCategoryBudgetInput.amount_milliunits p)
                 (UpdateCategoryBudgetInput.amount_dollars p)) = true ->
        ynab_update_category_budget p w = refused)
  /\ (forall p,
        is_ok (amount_of (CreateTransactionInput.amount_milliunits p)
                 (CreateTransactionInput.amount_dollars p)) = true ->
        ynab_create_transaction p w = refused)
  /\ (forall p,
        is_ok (amount_of (CreateScheduledTransactionInput.amount_milliunits p)
                 (CreateScheduledTransactionInput.amount_dollars p)) = true ->
        ynab_create_scheduled_transaction p w = refused).
Proof.
  intros Hkey refused. repeat split; intros p.
  - unfold ynab_get_transactions. run_tool'. by rewrite Hkey.
  - unfold ynab_search_transactions. run_tool'. by rewrite Hkey.
  - unfold ynab_update_category_budget. run_tool'.
    destruct (amount_of _ _); [|done]. by rewrite Hkey.
  - unfold ynab_create_transaction. run_tool'.
    destruct (amount_of _ _); [|done]. by rewrite Hkey.
  - unfold ynab_create_scheduled_transaction. run_tool'.
    destruct (amount_of _ _); [|done]. by rewrite Hkey.
Qed.

(** X12. When the upstream call of a listing or of a search raises, the
    tool returns what the classifier makes of the exception, and the world
    differs only by the one logged call: nothing is written and nothing is
    retried. *)
Theorem upstream_failure_classified (w : world) (e : exn) :
  truthy (YNAB_API_KEY w) = true ->
  (forall p, upstream w (listing_call p) = Raise e ->
     ynab_get_transactions p w
     = (handle_api_error e, log_call w (listing_call p)))
  /\ (forall p,
        let call := GetTransactions (SearchTransactionsInput.budget_id p)
                      (SearchTransactionsInput.since_date p) in
        upstream w call = Raise e ->
        ynab_search_transactions p w = (handle_api_error e, log_call w call)).
Proof.
  intros Hkey. split.
  - intros p He. unfold ynab_get_transactions. run_tool'. by rewrite Hkey, He.
  - intros p call He. unfold ynab_search_transactions. run_tool'.
    fold call. by rewrite Hkey, He.
Qed.


End MoreTools.

Lemma write_to_file_last_wins_witness :
  let w := sample_world sample_items in
  let path := "/tmp/ynab-mcp/transactions_20240131_120000.json" in
  let w1 := snd (@write_to_file sample_library (VInt 1) "transactions" None w) in
  let '(r2, w2) :=
    @write_to_file sample_library (VInt 2) "transactions" None w1 in
  r2 = Ok path
  /\ files w2 = <[path := "{}"]> (files w)
  /\ files w2
     = files (snd (@write_to_file sample_library (VInt 2) "transactions" None w)).
Proof.
  apply (@write_to_file_last_wins sample_library (VInt 1) (VInt 2)
           "transactions" None (sample_world sample_items)).
  reflexivity.
Defined.


Lemma tools_without_key_witness :
  @ynab_get_transactions sample_library (listing_params true false) keyless_world
  = ("Error: ValueError: YNAB_API_KEY environment variable is required",
     keyless_world).
Proof.
  destruct (@tools_without_key sample_library keyless_world) as [Hlisting _].
  - reflexivity.
  - apply Hlisting.
Defined.

Lemma upstream_failure_classified_witness :
  @ynab_get_transactions sample_library (listing_params true false) failing_world
  = ("Error: Resource not found. Check the ID is correct.",
     log_call failing_world (listing_call (listing_params true false))).
Proof.
  destruct (@upstream_failure_classified sample_library failing_world not_found)
    as [Hlisting _].
  - reflexivity.
  - apply Hlisting. reflexivity.
Defined.


(** ** Search *)




Section SearchTool.
Context `{Library}.

Ltac run_tool' :=
  unfold try_except, mbind, M_bind, mret, M_ret, get_api_client, api, lift,
    write_to_file.




End SearchTool.



(** ** Writing tools *)

Section WritingTools.
Context `{Library}.

Ltac run_tool' :=
  unfold try_except, mbind, M_bind, mret, M_ret, get_api_client, api, lift,
    write_to_file.


(** X18. An amount that cannot be determined stops a writing tool before
    it looks for the API key: the tool returns what the classifier makes
    of the exception and the world is as it was, so nothing is sent
    upstream.  A not-a-number and an infinite dollar amount are such
    amounts. *)
Theorem unconvertible_amount (w : world) (e : exn) :
  ((forall p,
      amount_of (UpdateCategoryBudgetInput.amount_milliunits p)
        (UpdateCategoryBudgetInput.amount_dollars p) = Raise e ->
      ynab_update_category_budget p w = (handle_api_error e, w))
   /\ (forall p,
         amount_of (CreateTransactionInput.amount_milliunits p)
           (CreateTransactionInput.amount_dollars p) = Raise e ->
         ynab_create_transaction p w = (handle_api_error e, w))
   /\ (forall p,
         amount_of (CreateScheduledTransactionInput.amount_milliunits p)
           (CreateScheduledTransactionInput.amount_dollars p) = Raise e ->
         ynab_create_scheduled_transaction p w = (handle_api_error e, w)))
  /\ amount_of None (Some S754_nan)
     = Raise (ValueError "cannot convert float NaN to integer")
  /\ (forall s, amount_of None (Some (S754_infinity s))
                = Raise (OverflowError "cannot convert float infinity to integer")).
Proof.
  split; [repeat split|split; [done|by intros []]].
  all: intros p He;
       unfold ynab_update_category_budget, ynab_create_transaction,
         ynab_create_scheduled_transaction; run_tool'; by rewrite He.
Qed.


End WritingTools.


Lemma unconvertible_amount_witness :
  @ynab_create_transaction sample_library (coffee_purchase None (Some S754_nan))
    creating_world
  = ("Error: ValueError: cannot convert float NaN to integer", creating_world).
Proof.
  destruct (@unconvertible_amount sample_library creating_world
              (ValueError "cannot convert float NaN to integer"))
    as ((_ & Hcreate & _) & _).
  apply (Hcreate (coffee_purchase None (Some S754_nan))). reflexivity.
Defined.


(** ** Update of a transaction *)

Lemma set_if_truthy_lookup (key : string) (field : option string) (d : dict)
  (k : string) (v : value) :
  set_if_truthy key field d !! k = Some v ->
  (k = key /\ exists s, v = VStr s /\ s <> "") \/ d !! k = Some v.
Proof.
  unfold set_if_truthy, truthy. destruct field as [s|]; [|by right].
  destruct (String.eqb_spec s ""); simpl; [by right|].
  destruct (decide (k = key)) as [->|Hk].
  - rewrite lookup_insert_eq. intros [= <-]. left. eauto.
  - rewrite lookup_insert_ne by done. by right.
Qed.

Lemma set_if_truthy_other (key : string) (field : option string) (d : dict)
  (k : string) :
  k <> key -> set_if_truthy key field d !! k = d !! k.
Proof.
  intros Hk. unfold set_if_truthy. destruct (truthy field); [|done].
  by rewrite lookup_insert_ne.
Qed.

(** X20. The amount rule of an update.  The input is accepted unless both
    amounts are present; with no amount the update carries no [amount]
    key, so the amount is left as it is; with one amount it carries the
    milliunits the single-amount inputs would send, and fails as they do
    when the dollars cannot be converted. *)
Theorem update_data_amount (p : UpdateTransactionInput.t) :
  let am := UpdateTransactionInput.amount_milliunits p in
  let ad := UpdateTransactionInput.amount_dollars p in
  (model_validate UpdateTransactionInput.at_most_one_amount p = Ok p
   <-> ~ (is_Some am /\ is_Some ad))
  /\ (model_validate UpdateTransactionInput.at_most_one_amount p = Ok p ->
      if bool_decide (am = None /\ ad = None) then
        exists d, update_data p = Ok d /\ d !! "amount" = None
      else
        match amount_of am ad with
        | Ok a => exists d, update_data p = Ok d /\ d !! "amount" = Some (VInt a)
        | Raise e => update_data p = Raise e
        end).
Proof.
  intros am ad. subst am ad.
  unfold model_validate, UpdateTransactionInput.at_most_one_amount, update_data,
    amount_of.
  destruct (UpdateTransactionInput.amount_milliunits p) as [a|],
    (UpdateTransactionInput.amount_dollars p) as [d|]; simpl.
  - split; [|done]. split; [done|]. intros Hn. destruct Hn. by split; eexists.
  - split; [split; [intros _ [_ [? ?]]; done|done]|]. intros _.
    eexists. split; [done|].
    repeat first [rewrite set_if_truthy_other by done
                 | case_match; rewrite ?lookup_insert_ne by done].
    all: by rewrite lookup_insert_eq.
  - split; [split; [intros _ [[? ?] _]; done|done]|]. intros _.
    destruct (dollars_to_milliunits d) as [a|e]; simpl; [|done].
    eexists. split; [done|].
    repeat first [rewrite set_if_truthy_other by done
                 | case_match; rewrite ?lookup_insert_ne by done].
    all: by rewrite lookup_insert_eq.
  - split; [split; [intros _ [[? ?] _]; done|done]|]. intros _.
    eexists. split; [done|].
    repeat first [rewrite set_if_truthy_other by done
                 | case_match; rewrite ?lookup_insert_ne by done].
    all: by rewrite ?set_if_truthy_other, ?lookup_empty.
Qed.

Lemma update_data_amount_witness :
  exists d, update_data blank_memo_update = Ok d
            /\ d !! "amount" = Some (VInt (-4500)).
Proof.
  destruct (update_data_amount blank_memo_update) as [_ Hamount].
  apply Hamount. reflexivity.
Defined.

Ltac update_data_cases H :=
  repeat match type of H with
    | set_if_truthy _ _ _ !! _ = Some _ =>
        apply set_if_truthy_lookup in H as [(-> & ? & -> & ?)|H]
    | <[_ := _]> _ !! _ = Some _ =>
        apply lookup_insert_Some in H as [[<- <-]|[? H]]
    | context [match ?o with Some _ => _ | None => _ end] => destruct o
    | ∅ !! _ = Some _ => by rewrite lookup_empty in H
    end.

(** X21. What an update can carry.  Its keys are among the nine fields of
    a transaction; no value is [None]; and no value is the empty string
    except under [memo]: an update can blank the memo (the memo is set
    whenever it is given) but cannot blank any other text field, an empty
    one being left out. *)
Theorem update_data_values (p : UpdateTransactionInput.t) (d : dict) :
  update_data p = Ok d ->
  (forall k v, d !! k = Some v ->
     k ∈ update_keys /\ v <> VNone /\ (v = VStr "" -> k = "memo"))
  /\ d !! "memo" = VStr <$> UpdateTransactionInput.memo p.
Proof.
  unfold update_data. intros Hd.
  assert (Hin : forall key, In key update_keys -> key ∈ update_keys)
    by (intros key; apply list_elem_of_In).
  destruct (UpdateTransactionInput.amount_milliunits p) as [a|];
    [|destruct (UpdateTransactionInput.amount_dollars p) as [x|];
      [destruct (dollars_to_milliunits x) as [a|e]; [|done]|]];
    destruct (UpdateTransactionInput.approved p),
      (UpdateTransactionInput.memo p);
    simpl in Hd; injection Hd as <-.
  all: split;
    [intros k v Hk; update_data_cases Hk;
     (split; [apply Hin; simpl; tauto|split; [done|]]);
     try done; intros [= ->]; done
    |repeat first [rewrite set_if_truthy_other by done
                  | rewrite lookup_insert_ne by done];
     by rewrite ?lookup_insert_eq, ?lookup_empty].
Qed.

Lemma update_data_values_witness :
  let d : dict := <["memo" := VStr ""]> (<["amount" := VInt (-4500)]> ∅) in
  (forall k v, d !! k = Some v ->
     k ∈ update_keys /\ v <> VNone /\ (v = VStr "" -> k = "memo"))
  /\ d !! "memo" = VStr <$> Some "".
Proof.
  apply (update_data_values blank_memo_update). reflexivity.
Defined.

(** ** Budget summary: categories by group *)

Lemma add_category_lookup (m : gmap string (list string)) (cat : Category.t)
  (gid : string) :
  add_category m cat !! gid
  = if bool_decide (Category.category_group_id cat = gid)
    then Some (default [] (m !! gid) ++ [Category.name cat])%list
    else m !! gid.
Proof.
  unfold add_category. cbv zeta.
  destruct (decide (Category.category_group_id cat = gid)) as [<-|Hg].
  - rewrite (bool_decide_eq_true_2 (_ = _)) by done.
    rewrite lookup_insert_eq. f_equal. f_equal.
    case_bool_decide as Hdom.
    + apply not_elem_of_dom in Hdom. rewrite Hdom. simpl.
      by rewrite lookup_total_insert_eq.
    + apply elem_of_dom in Hdom as [l Hl].
      rewrite Hl. simpl. by rewrite (lookup_total_correct _ _ _ Hl).
  - rewrite (bool_decide_eq_false_2 (_ = gid)) by done.
    rewrite lookup_insert_ne by done.
    case_bool_decide; [by rewrite lookup_insert_ne|done].
Qed.

Lemma names_in_group_cons (gid : string) (c : Category.t)
  (cs : list Category.t) :
  names_in_group gid (c :: cs)
  = if bool_decide (Category.category_group_id c = gid)
    then Category.name c :: names_in_group gid cs
    else names_in_group gid cs.
Proof. unfold names_in_group. simpl. by case_bool_decide. Qed.

Lemma foldl_add_category (categories : list Category.t) (gid : string) :
  forall m : gmap string (list string),
    foldl add_category m categories !! gid
    = match names_in_group gid categories with
      | [] => m !! gid
      | names => Some (default [] (m !! gid) ++ names)%list
      end.
Proof.
  induction categories as [|c cs IH]; intros m; [done|].
  cbn [foldl]. rewrite IH, add_category_lookup, names_in_group_cons.
  case_bool_decide; [|done]. cbn [default].
  destruct (names_in_group gid cs); simpl; [done|by rewrite <- app_assoc].
Qed.

Lemma cats_by_group_lookup (categories : option (list Category.t))
  (gid : string) :
  cats_by_group categories !! gid
  = match names_in_group gid (default [] categories) with
    | [] => None
    | names => Some names
    end.
Proof.
  unfold cats_by_group. rewrite foldl_add_category.
  by destruct (names_in_group _ _).
Qed.

Lemma group_categories_spec (categories : option (list Category.t))
  (cg : CategoryGroup.t) :
  group_categories (cats_by_group categories) cg
  = names_in_group (CategoryGroup.id cg) (default [] categories).
Proof.
  unfold group_categories. rewrite cats_by_group_lookup.
  by destruct (names_in_group _ _).
Qed.

(** X22. The grouping loop of the budget summary: after it,
    [cats_by_group] holds, under each group identifier that some category
    carries, the names of the categories of that group in the order of
    the budget, and holds no other key.  The summary lists the groups in
    the order of the budget, each with these names; a group no category
    belongs to is listed with an empty list. *)
Theorem cats_by_group_spec (categories : option (list Category.t))
  (groups : option (list CategoryGroup.t)) :
  (forall gid,
     cats_by_group categories !! gid
     = match names_in_group gid (default [] categories) with
       | [] => None
       | names => Some names
       end)
  /\ Forall2
       (fun cg group =>
          group !! "id" = Some (VStr (CategoryGroup.id cg))
          /\ group !! "name" = Some (VStr (CategoryGroup.name cg))
          /\ group !! "hidden" = Some (VBool (CategoryGroup.hidden cg))
          /\ group !! "categories"
             = Some (VList (VStr <$> names_in_group (CategoryGroup.id cg)
                                       (default [] categories))))
       (default [] groups) (category_groups categories groups).
Proof.
  split; [apply cats_by_group_lookup|].
  unfold category_groups. apply Forall2_fmap_r, Forall_Forall2_diag.
  apply Forall_forall. intros cg _. unfold compose, summary_group.
  rewrite group_categories_spec. by simplify_map_eq.
Qed.

Lemma names_by_group_cons (c : Category.t) (cs : list Category.t)
  (ids : list string) :
  NoDup ids ->
  mjoin ((fun gid => names_in_group gid (c :: cs)) <$> ids)
  ≡ₚ (if bool_decide (Category.category_group_id c ∈ ids)
      then [Category.name c] else [])
     ++ mjoin ((fun gid => names_in_group gid cs) <$> ids).
Proof.
  induction 1 as [|gid ids Hgid Hnd IH]; [done|].
  cbn [fmap list_fmap mjoin list_join]. rewrite IH, names_in_group_cons.
  destruct (decide (Category.category_group_id c = gid)) as [<-|Hc].
  - rewrite (bool_decide_eq_true_2 (_ = _)) by done.
    rewrite (bool_decide_eq_true_2 (_ ∈ _ :: _)) by (apply elem_of_cons; auto).
    by rewrite (bool_decide_eq_false_2 (_ ∈ ids)).
  - rewrite (bool_decide_eq_false_2 (_ = _)) by done.
    destruct (decide (Category.category_group_id c ∈ ids)) as [Hin|Hin].
    + rewrite (bool_decide_eq_true_2 (_ ∈ ids)) by done.
      rewrite (bool_decide_eq_true_2 (_ ∈ _ :: _)) by (apply elem_of_cons; auto).
      simpl. by rewrite Permutation_middle.
    + rewrite (bool_decide_eq_false_2 (_ ∈ ids)) by done.
      rewrite (bool_decide_eq_false_2 (_ ∈ _ :: _)); [done|].
      rewrite elem_of_cons. by intros [?|?].
Qed.

(** X23. When the identifiers of the category groups are distinct, the
    category lists of the summary's groups, taken together, hold exactly
    the names of the categories whose group is one of the groups, each as
    often as it occurs in the budget; a category of a group the budget
    does not list appears nowhere in the summary. *)
Theorem category_groups_partition (categories : option (list Category.t))
  (groups : option (list CategoryGroup.t)) :
  NoDup (CategoryGroup.id <$> default [] groups) ->
  mjoin (group_categories (cats_by_group categories) <$> default [] groups)
  ≡ₚ Category.name
       <$> List.filter
             (fun c => bool_decide (Category.category_group_id c
                                      ∈ CategoryGroup.id <$> default [] groups))
             (default [] categories).
Proof.
  intros Hnd.
  rewrite (list_fmap_ext _
             (fun cg => names_in_group (CategoryGroup.id cg)
                          (default [] categories)) (default [] groups))
    by (intros; apply group_categories_spec).
  rewrite (list_fmap_compose CategoryGroup.id
             (fun gid => names_in_group gid (default [] categories))).
  generalize dependent (CategoryGroup.id <$> default [] groups). intros ids Hnd.
  induction (default [] categories) as [|c cs IH].
  - simpl. induction ids as [|gid ids IHids]; [done|].
    apply NoDup_cons in Hnd as [_ Hnd]. simpl. by apply IHids.
  - rewrite names_by_group_cons by done. cbn [List.filter].
    case_bool_decide; cbn [fmap list_fmap]; simpl; by rewrite IH.
Qed.

Lemma category_groups_partition_witness :
  mjoin (group_categories (cats_by_group (Some sample_categories))
           <$> sample_groups)
  ≡ₚ ["Rent"; "Dining"; "Utilities"].
Proof.
  apply (category_groups_partition (Some sample_categories) (Some sample_groups)).
  apply (bool_decide_unpack _). vm_compute. reflexivity.
Defined.

Lemma names_in_group_filter (gid : string) (ids : list string)
  (categories : list Category.t) :
  gid ∈ ids ->
  names_in_group gid
    (List.filter (fun c => bool_decide (Category.category_group_id c ∈ ids))
       categories)
  = names_in_group gid categories.
Proof.
  intros Hgid. induction categories as [|c cs IH]; [done|].
  cbn [List.filter]. rewrite names_in_group_cons.
  destruct (decide (Category.category_group_id c = gid)) as [Hc|Hc].
  - rewrite (bool_decide_eq_true_2 (_ ∈ _)) by by rewrite Hc.
    rewrite names_in_group_cons, IH. done.
  - rewrite (bool_decide_eq_false_2 (_ = _)) by done.
    case_bool_decide; [|done].
    rewrite names_in_group_cons, IH.
    by rewrite (bool_decide_eq_false_2 (_ = _)) by done.
Qed.

(** X24. The section [Category Groups] of the Markdown summary shows
    nothing of a hidden group: it is the section of the budget with the
    hidden groups removed, and with every category removed whose group is
    hidden or is not listed. *)
Theorem category_group_lines_hides (categories : option (list Category.t))
  (groups : option (list CategoryGroup.t)) :
  let shown :=
    List.filter (fun cg => negb (CategoryGroup.hidden cg)) (default [] groups) in
  let kept :=
    List.filter
      (fun c => bool_decide (Category.category_group_id c
                               ∈ CategoryGroup.id <$> shown))
      (default [] categories) in
  category_group_lines categories groups
  = category_group_lines (Some kept) (Some shown).
Proof.
  intros shown kept. unfold category_group_lines.
  change (default [] (Some shown)) with shown.
  assert (Hids : forall cg, cg ∈ shown ->
            CategoryGroup.id cg ∈ CategoryGroup.id <$> shown)
    by (intros cg Hcg; by apply list_elem_of_fmap_2).
  subst kept. generalize dependent (CategoryGroup.id <$> shown).
  intros ids Hids. subst shown.
  match goal with
  | |- mjoin (?f <$> _) = mjoin (?g <$> _) => set (lines := f); set (lines' := g)
  end.
  induction (default [] groups) as [|cg gs IH]; [done|].
  cbn [List.filter] in *. rewrite fmap_cons.
  change (mjoin (?x :: ?l)) with (x ++ mjoin l)%list.
  destruct (CategoryGroup.hidden cg) eqn:Hh; cbn [negb] in *.
  - unfold lines at 1. rewrite Hh. cbn [negb app]. by apply IH.
  - rewrite fmap_cons. change (mjoin (?x :: ?l)) with (x ++ mjoin l)%list.
    unfold lines at 1, lines' at 1. rewrite Hh. cbn [negb].
    rewrite !group_categories_spec.
    change (default [] (Some ?l)) with l.
    rewrite names_in_group_filter by (apply Hids; left).
    rewrite IH; [done|]. intros cg' Hcg'. apply Hids. by right.
Qed.

(** ** Category listing *)

Section Listing.
Context `{Builtins}.

Lemma category_lines_hidden (cat : dict) :
  value_truthy (default VNone (cat !! "hidden")) = true ->
  category_lines cat = Ok [].
Proof. intros Hh. unfold category_lines. by rewrite Hh. Qed.

Lemma group_lines_hidden (g : Group.t) :
  Group.hidden g = true -> group_lines g = Ok [].
Proof. intros Hh. unfold group_lines. by rewrite Hh. Qed.

Lemma category_lines_visible (cats : list dict) :
  match mapM category_lines cats with
  | Ok ls => Ok (mjoin ls)
  | Raise e => Raise e
  end
  = match mapM category_lines
            (List.filter
               (fun cat =>
                  negb (value_truthy (default VNone (cat !! "hidden")))) cats)
    with
    | Ok ls => Ok (mjoin ls)
    | Raise e => Raise e
    end.
Proof.
  induction cats as [|cat cats IH]; [done|].
  cbn [mapM List.filter].
  destruct (value_truthy (default VNone (cat !! "hidden"))) eqn:Hh;
    cbn [negb].
  - rewrite (category_lines_hidden cat Hh), bind_Ok.
    rewrite <- IH. by destruct (mapM category_lines cats).
  - cbn [mapM]. destruct (category_lines cat) as [l|e]; [|done].
    rewrite !bind_Ok.
    destruct (mapM category_lines cats) as [ls|e],
      (mapM category_lines (List.filter _ cats)) as [ls'|e'];
      simpl in *; congruence.
Qed.

Lemma group_lines_visible (groups : list Group.t) :
  match mapM group_lines groups with
  | Ok ls => Ok (mjoin ls)
  | Raise e => Raise e
  end
  = match mapM group_lines (visible groups) with
    | Ok ls => Ok (mjoin ls)
    | Raise e => Raise e
    end.
Proof.
  unfold visible. induction groups as [|g groups IH]; [done|].
  cbn [mapM List.filter].
  destruct (Group.hidden g) eqn:Hh; cbn [negb].
  - rewrite (group_lines_hidden g Hh), bind_Ok.
    rewrite <- IH. by destruct (mapM group_lines groups).
  - rewrite fmap_cons. cbn [mapM].
    assert (Hg : group_lines g
                 = group_lines
                     {| Group.id := Group.id g; Group.name := Group.name g;
                        Group.hidden := Group.hidden g;
                        Group.categories :=
                          List.filter
                            (fun cat =>
                               negb (value_truthy
                                       (default VNone (cat !! "hidden"))))
                            (Group.categories g) |}).
    { unfold group_lines. cbn [Group.hidden Group.name Group.categories].
      rewrite Hh. pose proof (category_lines_visible (Group.categories g)) as Hc.
      destruct (mapM category_lines (Group.categories g)) as [ls|e],
        (mapM category_lines (List.filter _ (Group.categories g))) as [ls'|e'];
        simpl in *; congruence. }
    rewrite <- Hg. destruct (group_lines g) as [l|e]; [|done].
    rewrite !bind_Ok.
    destruct (mapM group_lines groups) as [ls|e],
      (mapM group_lines (_ <$> List.filter _ groups)) as [ls'|e'];
      simpl in *; congruence.
Qed.

(** X25. The Markdown listing of the categories shows nothing of what is
    hidden: it is the listing of the groups that are not hidden with their
    categories that are not hidden, and it fails only when that listing
    fails; a hidden category that lacks a key the listing prints raises
    nothing. *)
Theorem categories_markdown_hides (groups : list Group.t) :
  categories_markdown groups = categories_markdown (visible groups).
Proof.
  unfold categories_markdown.
  pose proof (group_lines_visible groups) as Hg.
  destruct (mapM group_lines groups) as [ls|e],
    (mapM group_lines (visible groups)) as [ls'|e'];
    try discriminate; [|by injection Hg as ->].
  injection Hg as Hg. rewrite !bind_Ok. by rewrite Hg.
Qed.

(** X26. The Markdown listing prints amounts as display strings, never as
    integers: for a category that is not hidden, with a name, an
    identifier and integer amounts, the two lines the listing prints after
    the transformation hold the name, the identifier and the display
    strings of [budgeted], [activity] and [balance]. *)
Theorem category_lines_display (cat : dict) (name id : string)
  (budgeted activity balance : Z) :
  cat !! "name" = Some (VStr name) ->
  cat !! "id" = Some (VStr id) ->
  cat !! "budgeted" = Some (VInt budgeted) ->
  cat !! "activity" = Some (VInt activity) ->
  cat !! "balance" = Some (VInt balance) ->
  value_truthy (default VNone (cat !! "hidden")) = false ->
  Forall (amount_field_ok cat) category_fields ->
  exists cat' b a l,
    transform_category cat = Ok cat'
    /\ milliunits_to_dollars budgeted = Ok b
    /\ milliunits_to_dollars activity = Ok a
    /\ milliunits_to_dollars balance = Ok l
    /\ category_lines cat'
       = Ok ["- **" +:+ name +:+ "** (`" +:+ id +:+ "`)";
             "  - Budgeted: " +:+ b +:+ " | Activity: " +:+ a
               +:+ " | Balance: " +:+ l].
Proof.
  intros Hname Hid Hb Ha Hl Hh Hok.
  destruct (transform_loop_spec category_fields) with (res := cat)
    as (cat' & Hcat' & Htr); [| |done|].
  { apply (bool_decide_unpack _). by vm_compute. }
  { apply (bool_decide_unpack _). by vm_compute. }
  assert (Hother : forall key,
            bool_decide (Forall (fun g => key <> g /\ key <> milliunits_key g)
                           category_fields) = true ->
            cat' !! key = cat !! key).
  { intros key Hkey. apply (transform_loop_other category_fields); [done|].
    exact (bool_decide_eq_true_1 _ Hkey). }
  assert (Hfield : forall f v, f ∈ category_fields ->
            cat !! f = Some (VInt v) ->
            exists s, milliunits_to_dollars v = Ok s
                      /\ cat' !! f = Some (VStr s)).
  { intros f v Hf Hv. rewrite Forall_forall in Htr.
    destruct (Htr f Hf) as [Hint _]. by destruct (Hint v Hv) as [_ ?]. }
  destruct (Hfield "budgeted" budgeted) as (b & Hsb & Hb');
    [apply (bool_decide_unpack _); by vm_compute|done|].
  destruct (Hfield "activity" activity) as (a & Hsa & Ha');
    [apply (bool_decide_unpack _); by vm_compute|done|].
  destruct (Hfield "balance" balance) as (l & Hsl & Hl');
    [apply (bool_decide_unpack _); by vm_compute|done|].
  exists cat', b, a, l. repeat (split; [done|]).
  unfold category_lines, getitem.
  rewrite (Hother "hidden"), Hh by by vm_compute.
  rewrite (Hother "name"), Hname by by vm_compute.
  rewrite (Hother "id"), Hid by by vm_compute.
  by rewrite Hb', Ha', Hl'.
Qed.

End Listing.

Lemma category_lines_display_witness :
  exists cat' b a l,
    transform_category rent_category = Ok cat'
    /\ milliunits_to_dollars 1500000 = Ok b
    /\ milliunits_to_dollars (-1500000) = Ok a
    /\ milliunits_to_dollars 0 = Ok l
    /\ @category_lines sample_builtins cat'
       = Ok ["- **" +:+ "Rent" +:+ "** (`" +:+ "c1" +:+ "`)";
             "  - Budgeted: " +:+ b +:+ " | Activity: " +:+ a
               +:+ " | Balance: " +:+ l].
Proof.
  apply (@category_lines_display sample_builtins rent_category "Rent" "c1"
           1500000 (-1500000) 0); try reflexivity.
  repeat apply Forall_cons_2; [| | | | |constructor].
  - right. right. exists 1500000. split; [reflexivity | by vm_compute].
  - right. right. exists (-1500000). split; [reflexivity | by vm_compute].
  - right. right. exists 0. split; [reflexivity | by vm_compute].
  - right. left. reflexivity.
  - left. reflexivity.
Defined.

Lemma mapM_raises {A B} (f : A -> result B) (l : list A) (x : A) (e : exn) :
  x ∈ l -> f x = Raise e -> exists e', mapM f l = Raise e'.
Proof.
  intros Hx Hfx. induction l as [|a l IH]; [by apply elem_of_nil in Hx|].
  simpl. destruct (f a) as [b|e'] eqn:Hfa; [|by eexists].
  rewrite bind_Ok. apply elem_of_cons in Hx as [->|Hx]; [congruence|].
  destruct (IH Hx) as [e' ->]. by eexists.
Qed.

Lemma transform_loop_text_raises (fields : list string) (f s : string) :
  f ∈ fields ->
  Forall (fun g => f <> milliunits_key g) fields ->
  forall res : dict,
    res !! f = Some (VStr s) -> exists e, transform_loop res fields = Raise e.
Proof.
  induction fields as [|g gs IH]; intros Hf Hsep res Hres;
    [by apply elem_of_nil in Hf|].
  apply Forall_cons in Hsep as [Hg Hsep]. simpl.
  destruct (decide (f = g)) as [<-|Hfg].
  - unfold transform_field. rewrite Hres. simpl. by eexists.
  - destruct (transform_field res g) as [res'|e] eqn:Hstep; [|by eexists].
    rewrite bind_Ok. apply IH; [|done|].
    + by apply elem_of_cons in Hf as [?|?].
    + by rewrite (transform_field_other res res' g f).
Qed.

Section ListingTool.
Context `{Library} `{Builtins}.

(** X27. The category listing transforms every category before it decides
    what to show: a category with a text where an amount is expected, be
    it hidden or in a hidden group, makes the call return an error text in
    either format, though the Markdown listing would not have shown it. *)
Theorem get_categories_transforms_hidden
  (data : list CategoryGroupWithCategories.t)
  (cg : CategoryGroupWithCategories.t) (cat : dict) (field text : string) :
  cg ∈ data ->
  cat ∈ default [] (CategoryGroupWithCategories.categories cg) ->
  field ∈ category_fields ->
  cat !! field = Some (VStr text) ->
  exists e,
    mapM build_group data = Raise e
    /\ forall response_format,
         ynab_get_categories response_format (Ok data) = handle_api_error e.
Proof.
  intros Hcg Hcat Hfield Htext.
  destruct (transform_loop_text_raises category_fields field text)
    with (res := cat) as [e1 He1]; [done| |done|].
  { assert (Hsep : keys_separated category_fields)
      by (apply (bool_decide_unpack _); by vm_compute).
    unfold keys_separated in Hsep. rewrite Forall_forall in Hsep.
    by apply Hsep. }
  destruct (mapM_raises transform_category _ cat e1 Hcat He1) as [e2 He2].
  destruct (mapM_raises build_group data cg e2 Hcg) as [e He].
  { unfold build_group. by rewrite He2. }
  exists e. split; [done|]. intros response_format.
  unfold ynab_get_categories. rewrite bind_Ok. by rewrite He.
Qed.

End ListingTool.

Lemma get_categories_transforms_hidden_witness :
  exists e,
    mapM build_group [hidden_group] = Raise e
    /\ forall response_format,
         @ynab_get_categories sample_library sample_builtins response_format
           (Ok [hidden_group])
         = handle_api_error e.
Proof.
  apply (@get_categories_transforms_hidden sample_library sample_builtins
           [hidden_group] hidden_group
           (<["budgeted" := VStr "$1.00"]> (<["name" := VStr "Dining"]> ∅))
           "budgeted" "$1.00").
  - left.
  - left.
  - left.
  - reflexivity.
Defined.

Example category_listing_example :
  @ynab_get_categories sample_library sample_builtins MARKDOWN
    (Ok [hidden_group])
  = "Error: TypeError: unsupported operand type(s) for /"
  /\ category_group_lines (Some sample_categories) (Some sample_groups)
     = ["### Bills"; "  - Rent"; "  - Utilities"; ""; "### Empty"; ""]
  /\ @categories_markdown sample_builtins
       [ {| Group.id := "g1"; Group.name := "Bills"; Group.hidden := false;
            Group.categories :=
              [<["amount" := VInt 1]> ∅;
               <["hidden" := VBool true]> ∅] |} ]
     = Raise (Exception "KeyError" "'name'").
Proof. by vm_compute. Qed.

(** ** Single category *)

Lemma display_truthy (a : Z) (s : string) :
  milliunits_to_dollars a = Ok s -> value_truthy (VStr s) = true.
Proof.
  destruct (milliunits_to_dollars_shape a) as (m & e2 & _ & ->).
  destruct a as [|p|p]; [|destruct (e2 <=? 971)%Z..]; intros Hs;
    try discriminate Hs; injection Hs as <-; [done|..].
  - match goal with |- context [ "$" +:+ ?x ] => generalize x end. intros x.
    by change ("$" +:+ x) with (String "$" x).
  - match goal with |- context [ "-$" +:+ ?x ] => generalize x end. intros x.
    by change ("-$" +:+ x) with (String "-" (String "$" x)).
Qed.

Section SingleCategory.
Context `{Builtins}.

(** X28. The goal block of a category prints every target, a zero target
    included: the listing tests the target after the transformation, where
    an integer target has become a display string, which is never empty.
    For a category with a goal type and an integer target the block is the
    heading, the type, the display string of the target, and the progress
    if there is one. *)
Theorem goal_target_shown (cat : dict) (goal_type : value) (target : Z) :
  cat !! "goal_type" = Some goal_type ->
  value_truthy goal_type = true ->
  cat !! "goal_target" = Some (VInt target) ->
  Forall (amount_field_ok cat) category_fields ->
  exists cat' s,
    transform_category cat = Ok cat'
    /\ milliunits_to_dollars target = Ok s
    /\ goal_lines cat'
       = Ok ([""; "## Goal"; "- Type: " +:+ str_of_value goal_type;
              "- Target: " +:+ s]
               ++ match cat !! "goal_percentage_complete" with
                  | None | Some VNone => []
                  | Some percentage =>
                      ["- Progress: " +:+ str_of_value percentage +:+ "%"]
                  end)%list.
Proof.
  intros Hty Htruthy Htarget Hok.
  destruct (transform_loop_spec category_fields) with (res := cat)
    as (cat' & Hcat' & Htr); [| |done|].
  { apply (bool_decide_unpack _). by vm_compute. }
  { apply (bool_decide_unpack _). by vm_compute. }
  assert (Hother : forall key,
            bool_decide (Forall (fun g => key <> g /\ key <> milliunits_key g)
                           category_fields) = true ->
            cat' !! key = cat !! key).
  { intros key Hkey. apply (transform_loop_other category_fields); [done|].
    exact (bool_decide_eq_true_1 _ Hkey). }
  rewrite Forall_forall in Htr.
  destruct (Htr "goal_target") as [Hint _];
    [apply (bool_decide_unpack _); by vm_compute|].
  destruct (Hint target Htarget) as (_ & s & Hs & Hs').
  exists cat', s. split; [done|]. split; [done|].
  unfold goal_lines, getitem.
  rewrite (Hother "goal_type"), Hty by by vm_compute.
  change (default ?d (Some ?x)) with x. rewrite Htruthy, Hs'.
  change (default ?d (Some ?x)) with x. rewrite (display_truthy _ _ Hs).
  rewrite (Hother "goal_percentage_complete") by by vm_compute.
  by destruct (cat !! "goal_percentage_complete") as [[]|].
Qed.

End SingleCategory.

Lemma goal_target_shown_witness :
  exists cat' s,
    transform_category zero_target_category = Ok cat'
    /\ milliunits_to_dollars 0 = Ok s
    /\ @goal_lines sample_builtins cat'
       = Ok ([""; "## Goal"; "- Type: " +:+ "TB"; "- Target: " +:+ s]
               ++ ["- Progress: " +:+ "0" +:+ "%"])%list.
Proof.
  apply (@goal_target_shown sample_builtins zero_target_category (VStr "TB") 0);
    try reflexivity.
  repeat apply Forall_cons_2; [| | | | |constructor].
  - right. right. exists 1500000. split; [reflexivity | by vm_compute].
  - right. right. exists (-1500000). split; [reflexivity | by vm_compute].
  - right. right. exists 0. split; [reflexivity | by vm_compute].
  - right. right. exists 0. split; [reflexivity | by vm_compute].
  - left. reflexivity.
Defined.

Example single_category_example :
  @ynab_get_category sample_library sample_builtins MARKDOWN
    (Ok zero_target_category)
  = join newline
      ["# Rent"; ""; "**ID**: `c1`"; "**Budgeted**: $1,500.00";
       "**Activity**: -$1,500.00"; "**Balance**: $0.00"; ""; "## Goal";
       "- Type: TB"; "- Target: $0.00"; "- Progress: 0%"]
  /\ @goal_lines sample_builtins zero_target_category
     = Ok [""; "## Goal"; "- Type: TB"; "- Progress: 0%"].
Proof. by vm_compute. Qed.
